(** * Knowledge-distillation driver for image classification

    A shallow embedding of [image_classification.py]: the evaluator
    ([evaluate]), one distillation pass ([distill_one_epoch]), the epoch loop
    with best-checkpoint selection ([distill]) and [main], which sets the
    process up and drives them.

    Python floats are binary64 values ([PrimFloat.float]), Python ints are
    [Z], [nn.Module] objects live in a heap addressed by references so that a
    parallel wrapper and the module it wraps share state, and every function
    of the driver is a computation in a monad with state, exceptions and a
    trace of the calls it makes to its collaborators. *)

From Stdlib Require Import ZArith Floats.
From stdpp Require Import gmap strings list.

Local Open Scope Z_scope.
#[local] Set Warnings "-inexact-float".

(** ** Python numbers *)

Module PyFloat.

(** [float(n)] for a Python int: the nearest binary64 value.  Python raises
    [OverflowError] beyond the binary64 range; the ints converted here are
    sample counts and tensor dimensions, far below it. *)
Definition of_int (n : Z) : float :=
  SF2Prim (binary_normalize prec emax n 0 false).

(** [a > b] on floats; false as soon as one side is NaN. *)
Definition gt (a b : float) : bool := PrimFloat.ltb b a.

End PyFloat.

(** ** Exceptions and the driver monad *)

Inductive exn :=
| NotFoundError
| ZeroDivisionError
| AttributeError
| KeyError
| RuntimeError.

Inductive result (A : Type) :=
| Ok (a : A)
| Raise (e : exn).
Arguments Ok {A} a.
Arguments Raise {A} e.

(** ** Smoothed metric and metric logger ([kdkit.misc.log]) *)

Module SmoothedValue.

(** Modelled from the spec: [kdkit.misc.log.SmoothedValue] is not among the
    sources.  Section 3 and 4.1 of the specification: a bounded window of
    the most recent samples, a running count and a running sum that are
    never truncated. *)
Record t := mk {
  window_size : nat;
  deque : list float;
  total : float;
  count : Z
}.

Definition new (window_size : nat) : t :=
  {| window_size := window_size; deque := []; total := 0%float; count := 0 |}.

(** The constructor's default window. *)
Definition default : t := new 20.

(** Appending to a bounded window drops the oldest entries beyond capacity. *)
Definition push (cap : nat) (d : list float) (v : float) : list float :=
  let d' := d ++ [v] in drop (length d' - cap)%nat d'.

(** Modelled from the spec: [update(value, weight)] appends [value] to the
    window, adds [weight] to the running count and [value * weight] to the
    running sum. *)
Definition update (v : float) (n : Z) (m : t) : t :=
  {| window_size := window_size m;
     deque := push (window_size m) (deque m) v;
     total := (total m + v * PyFloat.of_int n)%float;
     count := count m + n |}.

(** Modelled from the spec: [global_avg] is running sum / running count and
    fails when the count is 0. *)
Definition global_avg (m : t) : result float :=
  if count m =? 0 then Raise ZeroDivisionError
  else Ok (total m / PyFloat.of_int (count m))%float.

(** The windowed view: the most recent sample, if any. *)
Definition value (m : t) : option float := last (deque m).

(** A sequence of [update] calls, in call order. *)
Definition updates (calls : list (float * Z)) (m : t) : t :=
  fold_left (fun m c => update c.1 c.2 m) calls m.

(** The two sums of the specification, accumulated in call order the way
    Python's [sum] does, the first in binary64 and the second on ints. *)
Definition weighted_sum (calls : list (float * Z)) : float :=
  fold_left (fun acc c => (acc + c.1 * PyFloat.of_int c.2)%float) calls 0%float.

Definition weight_sum (calls : list (float * Z)) : Z :=
  fold_left (fun acc c => acc + c.2) calls 0.

(** [weighted_sum / weight_sum], failing on a zero denominator. *)
Definition weighted_mean (calls : list (float * Z)) : result float :=
  if weight_sum calls =? 0 then Raise ZeroDivisionError
  else Ok (weighted_sum calls / PyFloat.of_int (weight_sum calls))%float.

End SmoothedValue.

Module MetricLogger.

(** Modelled from the spec: [kdkit.misc.log.MetricLogger] is not among the
    sources.  Section 3 and 4.2: a mapping from metric name to smoothed
    metric; a write to an unregistered name creates a default metric, a
    read of a name never created fails. *)
Record t := mk { meters : gmap string SmoothedValue.t }.

Definition new : t := {| meters := ∅ |}.

(** Modelled from the spec: [add_meter(name, metric)] registers the metric;
    a name used again is overwritten. *)
Definition add_meter (name : string) (m : SmoothedValue.t) (l : t) : t :=
  {| meters := <[name := m]> (meters l) |}.

(** Modelled from the spec: [self.meters[name].update(v, n)], the metric
    created with the default window if the name is not registered. *)
Definition update_meter (name : string) (v : float) (n : Z) (l : t) : t :=
  let m := default SmoothedValue.default (meters l !! name) in
  {| meters := <[name := SmoothedValue.update v n m]> (meters l) |}.

(** Modelled from the spec: [self.<name>], the read of a metric by name;
    it fails on a name never created. *)
Definition getattr (name : string) (l : t) : result SmoothedValue.t :=
  match meters l !! name with
  | Some m => Ok m
  | None => Raise AttributeError
  end.

(** Modelled from the spec: [synchronize_between_processes] replaces the
    (count, sum) of every registered metric by the all-reduced total; the
    windows stay local.  [reduce name (count, sum)] is the result of the
    collective for the metric [name]. *)
Definition synchronize (reduce : string -> Z * float -> Z * float) (l : t) : t :=
  {| meters :=
       map_imap (fun name m =>
         let r := reduce name (SmoothedValue.count m, SmoothedValue.total m) in
         Some {| SmoothedValue.window_size := SmoothedValue.window_size m;
                 SmoothedValue.deque := SmoothedValue.deque m;
                 SmoothedValue.total := r.2;
                 SmoothedValue.count := r.1 |}) (meters l) |}.

End MetricLogger.

(** ** Distributed context ([kdkit.common.main_util]) *)

(** Modelled from the spec: the process-wide distributed context of section 3,
    fixed for the lifetime of the process. *)
Record DistributedContext := {
  world_size : Z;
  rank : Z;
  is_distributed : bool
}.

(** Modelled from the spec: [main_util.is_main_process()] is true iff the rank
    is 0 or the process is not distributed (section 4.3). *)
Definition is_main_process (ctx : DistributedContext) : bool :=
  (rank ctx =? 0) || negb (is_distributed ctx).

(** ** Modules, devices and the object heap *)

Abbreviation ref := nat (only parsing).

(** A state dict: parameter names with their tensors, the tensors opaque. *)
Abbreviation state_dict := (list (string * Z)) (only parsing).

Record device := { type : string }.

Inductive wrapper := DataParallel | DistributedDataParallel.

Inductive module_body :=
| Net (parameters : state_dict)
| Wrapped (w : wrapper) (module : ref) (device_ids : list Z).

(** An [nn.Module] object: its [training] flag, where [to] last placed it,
    and either its own parameters or the module it wraps. *)
Record module_obj := {
  training : bool;
  placement : option device;
  body : module_body
}.

Abbreviation heap := (list module_obj) (only parsing).

Module Heap.

(** [module_util.check_if_wrapped]: is the object a [DataParallel] or a
    [DistributedDataParallel]? *)
Definition check_if_wrapped (h : heap) (r : ref) : bool :=
  match h !! r with
  | Some {| body := Wrapped _ _ _ |} => true
  | _ => false
  end.

(** [model.module] *)
Definition module_of (h : heap) (r : ref) : option ref :=
  match h !! r with
  | Some {| body := Wrapped _ c _ |} => Some c
  | _ => None
  end.

(** The object and everything below it, as [nn.Module.modules()] walks
    them.  A wrapper has one child, so the walk is a chain; [depth] bounds
    it by the number of objects. *)
Fixpoint chain (depth : nat) (h : heap) (r : ref) : list ref :=
  match depth with
  | O => []
  | S d =>
      r :: match h !! r with
           | Some {| body := Wrapped _ c _ |} => chain d h c
           | _ => []
           end
  end.

Definition modules_of (h : heap) (r : ref) : list ref := chain (length h) h r.

Definition set_training (mode : bool) (o : module_obj) : module_obj :=
  {| training := mode; placement := placement o; body := body o |}.

Definition set_placement (d : device) (o : module_obj) : module_obj :=
  {| training := training o; placement := Some d; body := body o |}.

Definition alter_all (f : module_obj -> module_obj) (rs : list ref) (h : heap) : heap :=
  fold_right (fun r h => alter f r h) h rs.

(** [model.train(mode)]: the flag of the object and of all it contains. *)
Definition train (mode : bool) (r : ref) (h : heap) : heap :=
  alter_all (set_training mode) (modules_of h r) h.

(** [model.to(device)], in place. *)
Definition to (d : device) (r : ref) (h : heap) : heap :=
  alter_all (set_placement d) (modules_of h r) h.

(** A new wrapper object around [r]; a fresh [nn.Module] starts in training
    mode.  Returns the heap and the reference of the wrapper. *)
Definition wrap (w : wrapper) (r : ref) (ids : list Z) (h : heap) : heap * ref :=
  (h ++ [{| training := true;
            placement := h !! r ≫= placement;
            body := Wrapped w r ids |}],
   length h).

(** [model.state_dict()]: a wrapper exposes the wrapped module's entries
    under the prefix [module.]. *)
Fixpoint state_dict_at (depth : nat) (h : heap) (r : ref) : state_dict :=
  match depth with
  | O => []
  | S d =>
      match h !! r with
      | Some {| body := Net ps |} => ps
      | Some {| body := Wrapped _ c _ |} =>
          map (fun kv => (("module." ++ kv.1)%string, kv.2)) (state_dict_at d h c)
      | None => []
      end
  end.

Definition state_dict_of (h : heap) (r : ref) : state_dict :=
  state_dict_at (length h) h r.

(** The module that owns the parameters below [r], with the prefix its
    entries carry in [r]'s state dict. *)
Fixpoint locate (depth : nat) (h : heap) (r : ref) : option (string * ref) :=
  match depth with
  | O => None
  | S d =>
      match h !! r with
      | Some {| body := Net _ |} => Some (""%string, r)
      | Some {| body := Wrapped _ c _ |} =>
          (fun pn => (("module." ++ pn.1)%string, pn.2)) <$> locate d h c
      | None => None
      end
  end.

Fixpoint assoc (k : string) (sd : state_dict) : option Z :=
  match sd with
  | [] => None
  | (k', v) :: sd' => if String.eqb k k' then Some v else assoc k sd'
  end.

Definition has_key (sd : state_dict) (k : string) : bool :=
  match assoc k sd with Some _ => true | None => false end.

(** No missing and no unexpected key. *)
Definition same_keys (sd own : state_dict) : bool :=
  forallb (has_key sd) (map fst own) && forallb (has_key own) (map fst sd).

Definition assign (pre : string) (sd : state_dict) (o : module_obj) : module_obj :=
  match body o with
  | Net ps =>
      {| training := training o; placement := placement o;
         body := Net (map (fun kv => (kv.1, default kv.2 (assoc (pre ++ kv.1) sd))) ps) |}
  | Wrapped _ _ _ => o
  end.

(** [model.load_state_dict(sd, strict)]: the entries of [sd] replace the
    tensors with the same key; with [strict], a missing or an unexpected
    key is an error ([None], torch's [RuntimeError]). *)
Definition load_state_dict (strict : bool) (sd : state_dict) (r : ref) (h : heap)
  : option heap :=
  if strict && negb (same_keys sd (state_dict_of h r)) then None
  else
    match locate (length h) h r with
    | Some (pre, n) => Some (alter (assign pre sd) n h)
    | None => Some h
    end.

End Heap.

(** ** Configuration, run arguments, checkpoints and batches *)

(** [config['models'][...]]: the keys the driver reads. *)
Record model_config := {
  name : string;
  ckpt : string
}.

Record config := {
  teacher_model : model_config;
  student_model : model_config;
  log_freq : Z;
  test_dataset_id : string
}.

(** The parsed command line ([get_argparser]): [--log] is optional and has
    no default; [--config], [--device] and [--world_size] carry a prefix
    here, their names being taken. *)
Record args := {
  arg_config : string;
  arg_device : string;
  log : option string;
  start_epoch : Z;
  sync_bn : bool;
  test_only : bool;
  student_only : bool;
  arg_world_size : Z;
  dist_url : string
}.

(** Modelled from the spec: the checkpoint record of section 3, one per path. *)
Record checkpoint := {
  ck_model : state_dict;
  ck_optimizer : state_dict;
  ck_lr_scheduler : state_dict;
  ck_best_value : float;
  ck_config : config;
  ck_args : args
}.

(** A batch of a data loader: only its first dimension is read by the driver. *)
Record batch := {
  batch_size : Z;
  samples : Z
}.

(** ** The state of a process *)

(** The Python objects the collaborators can reach: the modules, the
    optimizer and the scheduler of the distillation box, and whatever else
    the box keeps ([hidden]). *)
Record objects (H : Type) := {
  modules : heap;
  optimizer : state_dict;
  lr_scheduler : state_dict;
  hidden : H
}.
Arguments modules {H} _.
Arguments optimizer {H} _.
Arguments lr_scheduler {H} _.
Arguments hidden {H} _.

(** The rest of the process state: torch's global thread count and the
    checkpoint files, which is to say the files as [check_if_exists],
    [load_ckpt] and [save_ckpt] see them.  Other files (the log, the
    datasets, the caches of the model zoo) are not among them. *)
Record world (H : Type) := {
  objs : objects H;
  num_threads : Z;
  files : gmap string checkpoint
}.
Arguments objs {H} _.
Arguments num_threads {H} _.
Arguments files {H} _.

(** The calls the driver makes, in the order it makes them.  [EvEval] is
    [model.eval()], [EvAccuracy] the summary line the evaluator logs, with
    the two global averages. *)
Inductive event :=
| EvGetDistillationBox (teacher student : ref)
| EvLoadCkpt (path : string) (model : option ref) (strict : bool)
| EvPreProcess (epoch : Z)
| EvDistillOneEpoch (epoch : Z)
| EvForward (b : batch)
| EvUpdateParams (loss : float)
| EvEvaluate (model : ref) (header : string)
| EvWrap (w : wrapper) (model : ref) (device_ids : list Z)
| EvEval (model : ref)
| EvAccuracy (top1 top5 : float)
| EvSaveCkpt (model : ref) (best : float) (path : string)
| EvPostProcess
| EvBarrier
| EvCleanModules.

Definition is_save (e : event) : bool :=
  match e with EvSaveCkpt _ _ _ => true | _ => false end.

(** The steps of the driver and the scores its evaluations report, as
    opposed to what happens inside a distillation pass or an evaluation. *)
Definition is_step (e : event) : bool :=
  match e with
  | EvForward _ | EvUpdateParams _ | EvWrap _ _ _ | EvEval _ => false
  | _ => true
  end.

Definition is_wrap (e : event) : bool :=
  match e with EvWrap _ _ _ => true | _ => false end.

(** *** The monad: state, exceptions, and the trace of calls *)

Definition M (H A : Type) : Type := world H -> result A * world H * list event.

Definition ret {H A} (a : A) : M H A := fun w => (Ok a, w, []).

Definition raise {H A} (e : exn) : M H A := fun w => (Raise e, w, []).

Definition bind {H A B} (m : M H A) (f : A -> M H B) : M H B :=
  fun w =>
    match m w with
    | (Ok a, w1, t1) =>
        match f a w1 with
        | (r, w2, t2) => (r, w2, t1 ++ t2)
        end
    | (Raise e, w1, t1) => (Raise e, w1, t1)
    end.

Declare Scope driver_scope.
Delimit Scope driver_scope with driver.
Notation "x <- m ;; k" := (bind m (fun x => k))
  (at level 100, m at next level, right associativity) : driver_scope.
Notation "m ;;; k" := (bind m (fun _ => k))
  (at level 100, right associativity) : driver_scope.

Definition emit {H} (e : event) : M H unit := fun w => (Ok tt, w, [e]).

Definition lift {H A} (r : result A) : M H A := fun w => (r, w, []).

Definition get_objects {H} : M H (objects H) := fun w => (Ok (objs w), w, []).

Definition put_objects {H} (o : objects H) : M H unit :=
  fun w => (Ok tt, {| objs := o; num_threads := num_threads w; files := files w |}, []).

Definition modify_modules {H} (f : heap -> heap) : M H unit :=
  fun w =>
    (Ok tt,
     {| objs := {| modules := f (modules (objs w));
                   optimizer := optimizer (objs w);
                   lr_scheduler := lr_scheduler (objs w);
                   hidden := hidden (objs w) |};
        num_threads := num_threads w; files := files w |}, []).

(** [torch.get_num_threads()] and [torch.set_num_threads(n)] *)
Definition get_num_threads {H} : M H Z := fun w => (Ok (num_threads w), w, []).

Definition set_num_threads {H} (n : Z) : M H unit :=
  fun w => (Ok tt, {| objs := objs w; num_threads := n; files := files w |}, []).

(** The checkpoint file at a path, if there is one, and its replacement. *)
Definition read_file {H} (path : string) : M H (option checkpoint) :=
  fun w => (Ok (files w !! path), w, []).

Definition write_file {H} (path : string) (ck : checkpoint) : M H unit :=
  fun w =>
    (Ok tt,
     {| objs := objs w; num_threads := num_threads w;
        files := <[path := ck]> (files w) |}, []).

(** Modelled from the spec: the bundle a checkpoint write serialises
    (section 3): the state of [model], of the optimizer and of the scheduler,
    the best score, and the configuration and run arguments as metadata. *)
Definition snapshot {H} (o : objects H) (model : ref) (best : float) (cfg : config)
    (a : args) : checkpoint :=
  {| ck_model := Heap.state_dict_of (modules o) model;
     ck_optimizer := optimizer o;
     ck_lr_scheduler := lr_scheduler o;
     ck_best_value := best;
     ck_config := cfg;
     ck_args := a |}.

(** A call into a collaborator: it works on the objects it can reach and
    either returns or raises, leaving them as it left them. *)
Definition call {H A} (f : objects H -> result A * objects H) : M H A :=
  fun w =>
    match f (objs w) with
    | (r, o) => (r, {| objs := o; num_threads := num_threads w; files := files w |}, [])
    end.

(** A collaborator that only reads. *)
Definition ask {H A} (f : objects H -> result A) : M H A :=
  fun w => (f (objs w), w, []).

(** A [for] loop over a finite sequence, threading a value. *)
Fixpoint for_each {H X S} (xs : list X) (s : S) (body : X -> S -> M H S) : M H S :=
  match xs with
  | [] => ret s
  | x :: xs' => bind (body x s) (fun s' => for_each xs' s' body)
  end.

(** [range(a, b)] *)
Definition range (a b : Z) : list Z :=
  map (fun i => a + Z.of_nat i) (seq 0 (Z.to_nat (b - a))).

(** ** Collaborators *)

(** What the driver calls but does not define: the distillation box
    ([kdkit.tools.distillation]), the forward pass and the accuracy measure
    ([torch], [kdkit.eval.classification]), the collective reduction
    ([torch.distributed]), and the construction of models and data loaders
    ([kdkit.models], [kdkit.datasets.util]).  Each works on the objects it
    can reach and may raise; none touches the checkpoint files or torch's
    thread count. *)
Class Collaborators (H : Type) := {
  get_distillation_box : ref -> ref -> bool -> objects H -> result unit * objects H;
  num_epochs : objects H -> Z;
  train_data_loader : objects H -> list batch;
  val_data_loader : objects H -> list batch;
  pre_process : Z -> objects H -> result unit * objects H;
  forward_loss : batch -> objects H -> result float * objects H;
  update_params : float -> objects H -> result unit * objects H;
  post_process : objects H -> result unit * objects H;
  clean_modules : objects H -> result unit * objects H;
  (** [compute_accuracy(model(image), target, topk=(1, 5))]: under
      [torch.no_grad()] and in inference mode the forward pass reads the
      objects and changes none *)
  accuracy : ref -> batch -> objects H -> result (float * float);
  (** the sum over all processes of a metric's (count, sum) *)
  all_reduce : objects H -> string -> Z * float -> Z * float;
  (** [get_image_classification_model], or the entry of [MODEL_DICT] *)
  construct_model : model_config -> bool -> bool -> objects H -> result ref * objects H;
  build_data_loader : string -> bool -> objects H -> result (list batch) * objects H
}.

(** What [main] calls before it builds the models: the set-up of the log
    file ([kdkit.misc.log]), of the distributed mode ([main_util]), the
    configuration file ([yaml_util]), the device ([torch.device]) and the
    datasets ([kdkit.datasets.util]).  The datasets live with the rest of the
    state of the collaborators. *)
Class Launcher (H : Type) := {
  setup_log_file : string -> objects H -> result unit * objects H;
  init_distributed_mode : Z -> string -> objects H -> result (bool * list Z) * objects H;
  load_yaml_file : string -> objects H -> result config * objects H;
  torch_device : string -> result device;
  get_all_dataset : config -> objects H -> result unit * objects H
}.

Section Driver.

Context {H : Type} {box : Collaborators H} {launcher : Launcher H}.

(** The distributed context of this process. *)
Variable ctx : DistributedContext.

Local Open Scope driver_scope.

(** *** Checkpoint store ([myutils.common.file_util], [kdkit.common.main_util]) *)

(** [file_util.check_if_exists(path)] *)
Definition check_if_exists (path : string) : M H bool :=
  f <- read_file path ;;
  ret (bool_decide (is_Some f)).

(** Modelled from the spec: [main_util.load_ckpt] is not among the sources.
    Section 4.4: [load(path)] returns (best score, model state, optimizer
    state) and fails with [NotFoundError] if the path is absent.  A model,
    an optimizer and a scheduler passed in are restored from the record;
    [strict] is the strictness of the model's [load_state_dict]. *)
Definition load_ckpt (path : string) (model : option ref)
    (with_optimizer with_lr_scheduler strict : bool)
  : M H (float * state_dict * state_dict) :=
  emit (EvLoadCkpt path model strict) ;;;
  f <- read_file path ;;
  match f with
  | None => raise NotFoundError
  | Some ck =>
      o <- get_objects ;;
      h <- match model with
           | Some r =>
               match Heap.load_state_dict strict (ck_model ck) r (modules o) with
               | Some h => ret h
               | None => raise RuntimeError
               end
           | None => ret (modules o)
           end ;;
      put_objects
        {| modules := h;
           optimizer := if with_optimizer then ck_optimizer ck else optimizer o;
           lr_scheduler := if with_lr_scheduler then ck_lr_scheduler ck
                           else lr_scheduler o;
           hidden := hidden o |} ;;;
      ret (ck_best_value ck, ck_model ck, ck_optimizer ck)
  end.

(** Modelled from the spec: [main_util.save_ckpt] is not among the sources.
    Section 4.4: [save(model, optimizer, scheduler, best_score, config,
    args, path)] serialises the bundle and writes it to [path]. *)
Definition save_ckpt (model : ref) (best : float) (cfg : config) (a : args)
    (path : string) : M H unit :=
  emit (EvSaveCkpt model best path) ;;;
  o <- get_objects ;;
  write_file path (snapshot o model best cfg a).

(** *** [get_model] *)

Definition get_model (mc : model_config) (dev : device) (distributed sync_bn : bool)
  : M H ref :=
  model <- call (construct_model mc distributed sync_bn) ;;
  load_ckpt (ckpt mc) (Some model) false false true ;;;
  modify_modules (Heap.to dev model) ;;;
  ret model.

(** *** [distill_one_epoch]

    The pass keeps a metric logger of its own (loss, learning rate,
    images per second) that only feeds the progress report; it is not
    part of the model. *)
Definition distill_one_epoch (epoch : Z) : M H unit :=
  emit (EvDistillOneEpoch epoch) ;;;
  o <- get_objects ;;
  for_each (train_data_loader o) tt (fun b _ =>
    emit (EvForward b) ;;;
    loss <- call (forward_loss b) ;;
    emit (EvUpdateParams loss) ;;;
    call (update_params loss)).

(** *** [evaluate] *)

(** [DistributedDataParallel(model, device_ids=...)] and
    [DataParallel(model, device_ids=...)] *)
Definition wrap (k : wrapper) (model : ref) (device_ids : list Z) : M H ref :=
  emit (EvWrap k model device_ids) ;;;
  o <- get_objects ;;
  let hr := Heap.wrap k model device_ids (modules o) in
  modify_modules (fun _ => hr.1) ;;;
  ret hr.2.

(** [metric_logger.synchronize_between_processes()]: a no-op unless the
    process is distributed. *)
Definition synchronize_between_processes (l : MetricLogger.t) : M H MetricLogger.t :=
  o <- get_objects ;;
  ret (if is_distributed ctx then MetricLogger.synchronize (all_reduce o) l else l).

(** [metric_logger.<name>.global_avg] *)
Definition global_avg_of (name : string) (l : MetricLogger.t) : M H float :=
  m <- lift (MetricLogger.getattr name l) ;;
  lift (SmoothedValue.global_avg m).

(** [log_freq] and [title] only drive the logging and are left out;
    [torch.no_grad()] is why [accuracy] changes no object. *)
Definition evaluate (model : ref) (data_loader : list batch) (dev : device)
    (device_ids : list Z) (distributed : bool) (header : string) : M H float :=
  emit (EvEvaluate model header) ;;;
  modify_modules (Heap.to dev model) ;;;
  model <- (if distributed then wrap DistributedDataParallel model device_ids
            else if String.prefix "cuda" (type dev)
                 then wrap DataParallel model device_ids
                 else ret model) ;;
  num_threads <- get_num_threads ;;
  set_num_threads 1 ;;;
  emit (EvEval model) ;;;
  modify_modules (Heap.train false model) ;;;
  metric_logger <-
    for_each data_loader MetricLogger.new (fun b l =>
      acc <- ask (accuracy model b) ;;
      ret (MetricLogger.update_meter "acc5" acc.2 (batch_size b)
             (MetricLogger.update_meter "acc1" acc.1 (batch_size b) l))) ;;
  metric_logger <- synchronize_between_processes metric_logger ;;
  top1_accuracy <- global_avg_of "acc1" metric_logger ;;
  top5_accuracy <- global_avg_of "acc5" metric_logger ;;
  emit (EvAccuracy top1_accuracy top5_accuracy) ;;;
  set_num_threads num_threads ;;;
  global_avg_of "acc1" metric_logger.

(** *** [distill] *)

(** Lines 108 to 111: the best score the run starts from.  No model is
    passed to [load_ckpt], so the strictness, left at its default, plays no
    part. *)
Definition resume_best_score (ckpt_file_path : string) : M H float :=
  present <- check_if_exists ckpt_file_path ;;
  if (present : bool)
  then r <- load_ckpt ckpt_file_path None true true true ;; ret r.1.1
  else ret 0%float.

(** [student_model.module if check_if_wrapped(student_model) else student_model] *)
Definition student_model_without_ddp (student : ref) : M H ref :=
  o <- get_objects ;;
  if Heap.check_if_wrapped (modules o) student
  then match Heap.module_of (modules o) student with
       | Some c => ret c
       | None => raise AttributeError
       end
  else ret student.

(** The body of the epoch loop, lines 117 to 127. *)
Definition distill_epoch (student without_ddp : ref) (dev : device)
    (device_ids : list Z) (distributed : bool) (cfg : config) (a : args)
    (ckpt_file_path : string) (epoch : Z) (best : float) : M H float :=
  emit (EvPreProcess epoch) ;;;
  call (pre_process epoch) ;;;
  distill_one_epoch epoch ;;;
  o <- get_objects ;;
  val <- evaluate student (val_data_loader o) dev device_ids distributed "Validation:" ;;
  best <- (if PyFloat.gt val best && is_main_process ctx
           then save_ckpt without_ddp val cfg a ckpt_file_path ;;; ret val
           else ret best) ;;
  emit EvPostProcess ;;;
  call post_process ;;;
  ret best.

(** Lines 103 to 114: what [distill] does before the loop; it yields the
    best score to start from and the student without its wrapper. *)
Definition distill_setup (teacher student : ref) (distributed : bool) (cfg : config)
  : M H (float * ref) :=
  emit (EvGetDistillationBox teacher student) ;;;
  call (get_distillation_box teacher student distributed) ;;;
  best <- resume_best_score (ckpt (student_model cfg)) ;;
  without_ddp <- student_model_without_ddp student ;;
  ret (best, without_ddp).

Definition distill (teacher student : ref) (dev : device) (device_ids : list Z)
    (distributed : bool) (start : Z) (cfg : config) (a : args) : M H unit :=
  st <- distill_setup teacher student distributed cfg ;;
  o <- get_objects ;;
  for_each (range start (num_epochs o)) st.1
    (distill_epoch student st.2 dev device_ids distributed cfg a
       (ckpt (student_model cfg))) ;;;
  (if distributed then emit EvBarrier else ret tt) ;;;
  emit EvCleanModules ;;;
  call clean_modules.

(** *** [main] *)

(** Lines 157 to 159: the final student checkpoint is loaded back. *)
Definition reload_student (student : ref) (cfg : config) : M H unit :=
  without_ddp <- student_model_without_ddp student ;;
  load_ckpt (ckpt (student_model cfg)) (Some without_ddp) false false true ;;;
  ret tt.

(** Lines 156 to 159: the branch of [main] taken unless [-test_only]. *)
Definition train_and_reload (teacher student : ref) (dev : device)
    (device_ids : list Z) (distributed : bool) (cfg : config) (a : args) : M H unit :=
  distill teacher student dev device_ids distributed (start_epoch a) cfg a ;;;
  reload_student student cfg.

(** Lines 149 to 169: [main] once the configuration, the device and the
    datasets are there. *)
Definition main_body (a : args) (cfg : config) (dev : device) (device_ids : list Z)
    (distributed : bool) : M H unit :=
  teacher <- get_model (teacher_model cfg) dev distributed false ;;
  student <- get_model (student_model cfg) dev distributed (sync_bn a) ;;
  (if negb (test_only a)
   then train_and_reload teacher student dev device_ids distributed cfg a
   else ret tt) ;;;
  test_data_loader <- call (build_data_loader (test_dataset_id cfg) distributed) ;;
  (if negb (student_only a)
   then evaluate teacher test_data_loader dev device_ids distributed "Test:" ;;; ret tt
   else ret tt) ;;;
  evaluate student test_data_loader dev device_ids distributed "Test:" ;;;
  ret tt.

(** Lines 139 to 148, then the rest.  [is_main_process()] is asked of the
    distributed context of the process, as everywhere else.
    [logger.info(args)] only logs, and [cudnn.benchmark = True] sets a flag
    of the backend that nothing here reads; both are left out. *)
Definition main (a : args) : M H unit :=
  (if is_main_process ctx
   then match log a with
        | Some log_file_path => call (setup_log_file log_file_path)
        | None => ret tt
        end
   else ret tt) ;;;
  mode <- call (init_distributed_mode (arg_world_size a) (dist_url a)) ;;
  cfg <- call (load_yaml_file (arg_config a)) ;;
  dev <- lift (torch_device (arg_device a)) ;;
  call (get_all_dataset cfg) ;;;
  main_body a cfg dev mode.2 mode.1.

End Driver.

(** ** A concrete run: scripted validation scores

    A distillation box whose student scores, at the validation of epoch
    [e], the [e]-th entry of a script; its hidden state is the epoch set by
    [pre_process]. *)
Module Scripted.

Definition with_hidden (e : Z) (o : objects Z) : objects Z :=
  {| modules := modules o; optimizer := optimizer o;
     lr_scheduler := lr_scheduler o; hidden := e |}.

Definition new_net (mc : model_config) (o : objects Z) : result ref * objects Z :=
  (Ok (length (modules o)),
   {| modules := modules o ++ [{| training := true; placement := None;
                                  body := Net [("fc.weight"%string, 0)] |}];
      optimizer := optimizer o; lr_scheduler := lr_scheduler o;
      hidden := hidden o |}).

Definition box (script : list float) (epochs : Z) : Collaborators Z :=
  {| get_distillation_box := fun _ _ _ o => (Ok tt, o);
     num_epochs := fun _ => epochs;
     train_data_loader := fun _ => [{| batch_size := 4; samples := 0 |}];
     val_data_loader := fun _ => [{| batch_size := 1; samples := 1 |}];
     pre_process := fun e o => (Ok tt, with_hidden e o);
     forward_loss := fun _ o => (Ok 1%float, o);
     update_params := fun _ o => (Ok tt, o);
     post_process := fun o => (Ok tt, o);
     clean_modules := fun o => (Ok tt, o);
     accuracy := fun _ _ o =>
       Ok (nth (Z.to_nat (hidden o)) script 0%float, 1%float);
     all_reduce := fun _ _ cs => cs;
     construct_model := fun mc _ _ o => new_net mc o;
     build_data_loader := fun _ _ o => (Ok [{| batch_size := 2; samples := 2 |}], o) |}.

Definition single : DistributedContext :=
  {| world_size := 1; rank := 0; is_distributed := false |}.

(** Rank 1 of a distributed run of two processes. *)
Definition worker : DistributedContext :=
  {| world_size := 2; rank := 1; is_distributed := true |}.

Definition cpu : device := {| type := "cpu" |}.
Definition cuda : device := {| type := "cuda" |}.

Definition cfg : config :=
  {| teacher_model := {| name := "resnet34"; ckpt := "teacher.pt" |};
     student_model := {| name := "resnet18"; ckpt := "student.pt" |};
     log_freq := 1000;
     test_dataset_id := "val" |}.

Definition run_args : args :=
  {| arg_config := "config.yaml"; arg_device := "cpu"; log := None;
     start_epoch := 0; sync_bn := false; test_only := false; student_only := false;
     arg_world_size := 1; dist_url := "env://" |}.

(** A launch on one process: the configuration file holds [cfg], the device
    is of the type it is named after. *)
Definition launch : Launcher Z :=
  {| setup_log_file := fun _ o => (Ok tt, o);
     init_distributed_mode := fun _ _ o => (Ok (false, []), o);
     load_yaml_file := fun _ o => (Ok cfg, o);
     torch_device := fun name => Ok {| type := name |};
     get_all_dataset := fun _ o => (Ok tt, o) |}.

Definition net (mode : bool) : module_obj :=
  {| training := mode; placement := None; body := Net [("fc.weight"%string, 0)] |}.

(** Teacher at reference 0, student at reference 1, both in training
    mode; no checkpoint on disk. *)
Definition fresh : world Z :=
  {| objs := {| modules := [net true; net true]; optimizer := []; lr_scheduler := [];
                hidden := 0 |};
     num_threads := 8;
     files := ∅ |}.

Definition script : list float := [0.5%float; 0.4%float; 0.6%float; 0.6%float; 0.7%float].

(** Five epochs on that script. *)
Definition five : Collaborators Z := box script 5.

(** A data loader of one batch. *)
Definition one : list batch := [{| batch_size := 1; samples := 1 |}].

(** One epoch whose validation scores 0: never an improvement. *)
Definition flat : Collaborators Z := box [] 1.

(** Rank 0 of a distributed run of two processes. *)
Definition leader : DistributedContext :=
  {| world_size := 2; rank := 0; is_distributed := true |}.

(** As [fresh], with the student at reference 1 wrapped for distributed
    execution: the wrapper is at reference 2. *)
Definition wrapped : world Z :=
  {| objs := {| modules := [net true; net true;
                            {| training := true; placement := None;
                               body := Wrapped DistributedDataParallel 1%nat [0] |}];
                optimizer := []; lr_scheduler := []; hidden := 0 |};
     num_threads := 8;
     files := ∅ |}.

(** A checkpoint of an earlier run, with a best score of 0.6. *)
Definition earlier : checkpoint :=
  {| ck_model := [("fc.weight"%string, 7)];
     ck_optimizer := [("momentum"%string, 3)];
     ck_lr_scheduler := [("last_epoch"%string, 2)];
     ck_best_value := 0.6%float;
     ck_config := cfg;
     ck_args := run_args |}.

(** As [fresh], with that checkpoint at the student's path. *)
Definition resumed : world Z :=
  {| objs := objs fresh; num_threads := 8;
     files := {[ "student.pt"%string := earlier ]} |}.

End Scripted.

(** ** Vocabulary of the statements *)

(** What holds of the outcome of a computation started in [w]: its result,
    the state it leaves and the calls it made. *)
Definition wp {H A} (m : M H A) (Q : result A -> world H -> list event -> Prop)
    (w : world H) : Prop :=
  match m w with (r, w', t) => Q r w' t end.

Definition steps (t : list event) : list event := List.filter is_step t.

Definition saves (t : list event) : list event := List.filter is_save t.

Definition wraps (t : list event) : list event := List.filter is_wrap t.

(** The wrapper the specification asks of the evaluator: distributed
    execution takes precedence, then an accelerator device. *)
Definition eval_wrapper (distributed : bool) (dev : device) : option wrapper :=
  if distributed then Some DistributedDataParallel
  else if String.prefix "cuda" (type dev) then Some DataParallel
  else None.

(** The heap an evaluation of [model] leaves behind. *)
Definition evaluated_heap (k : option wrapper) (dev : device) (model : ref)
    (ids : list Z) (h : heap) : heap :=
  let h1 := Heap.to dev model h in
  match k with
  | Some k => let hr := Heap.wrap k model ids h1 in Heap.train false hr.2 hr.1
  | None => Heap.train false model h1
  end.

(** The best-checkpoint rule of the specification: a new best is a score
    strictly above the current one, seen by the main process. *)
Definition improves (main : bool) (best val : float) : bool :=
  PyFloat.gt val best && main.

Definition next_best (main : bool) (best val : float) : float :=
  if improves main best val then val else best.

(** The steps of one epoch whose validation scored [val] (top-5 [top5]). *)
Definition epoch_steps (student without_ddp : ref) (path : string) (main : bool)
    (epoch : Z) (best val top5 : float) : list event :=
  [EvPreProcess epoch; EvDistillOneEpoch epoch;
   EvEvaluate student "Validation:"; EvAccuracy val top5]
  ++ (if improves main best val then [EvSaveCkpt without_ddp val path] else [])
  ++ [EvPostProcess].

(** The steps of the loop over [epochs], the validations scoring [scores]. *)
Fixpoint loop_steps (student without_ddp : ref) (path : string) (main : bool)
    (epochs : list Z) (best : float) (scores : list (float * float)) : list event :=
  match epochs, scores with
  | e :: es, (v, t5) :: ss =>
      epoch_steps student without_ddp path main e best v t5
      ++ loop_steps student without_ddp path main es (next_best main best v) ss
  | _, _ => []
  end.

(** [metric_logger.<name>.global_avg] as a value. *)
Definition global_avg_at (name : string) (l : MetricLogger.t) : result float :=
  match MetricLogger.getattr name l with
  | Ok m => SmoothedValue.global_avg m
  | Raise e => Raise e
  end.

(** The scores the evaluator reported, top-1 with top-5. *)
Fixpoint reports (t : list event) : list (float * float) :=
  match t with
  | [] => []
  | EvAccuracy v t5 :: t' => (v, t5) :: reports t'
  | _ :: t' => reports t'
  end.

(** The optimizer and the scheduler as a checkpoint restores them. *)
Definition restore_from {H} (ck : option checkpoint) (o : objects H) : objects H :=
  match ck with
  | Some ck =>
      {| modules := modules o; optimizer := ck_optimizer ck;
         lr_scheduler := ck_lr_scheduler ck; hidden := hidden o |}
  | None => o
  end.

(** The best score a run starts from. *)
Definition initial_best (ck : option checkpoint) : float :=
  match ck with
  | Some ck => ck_best_value ck
  | None => 0%float
  end.

(** [student_model.module] if the student is wrapped, else the student. *)
Definition underlying (h : heap) (student : ref) : ref :=
  default student (Heap.module_of h student).

(** ** The model registry ([kdkit/models/__init__.py]) and the construction of a model *)

(** A registered model class or function, called on the configured
    parameters. *)
Abbreviation model_builder H :=
  (model_config -> objects H -> result nat * objects H) (only parsing).

Section Registry.

Context {H : Type}.

(** [d.update(new)]: the entries of [new] are added to [d] and replace those
    of the same key. *)
Definition dict_update (d new : gmap string (model_builder H)) : gmap string (model_builder H) :=
  new ∪ d.

(** Lines 5 to 10 of [kdkit/models/__init__.py]; the four registries are
    defined in modules that are not among the sources. *)
Definition MODEL_DICT (ADAPTATION_CLASS_DICT SPECIAL_CLASS_DICT
    CUSTOM_MODEL_CLASS_DICT CUSTOM_MODEL_FUNC_DICT : gmap string (model_builder H))
  : gmap string (model_builder H) :=
  dict_update
    (dict_update
       (dict_update (dict_update ∅ ADAPTATION_CLASS_DICT) SPECIAL_CLASS_DICT)
       CUSTOM_MODEL_CLASS_DICT)
    CUSTOM_MODEL_FUNC_DICT.

(** Lines 42 to 44 of [get_model]: the official model if
    [get_image_classification_model] finds one, else the entry of the
    registry under the configured name, a missing name being a
    [KeyError]. *)
Definition construct
    (get_image_classification_model :
       model_config -> bool -> bool -> objects H -> result (option nat) * objects H)
    (registry : gmap string (model_builder H))
    (mc : model_config) (distributed sync_bn : bool) (o : objects H)
  : result nat * objects H :=
  match get_image_classification_model mc distributed sync_bn o with
  | (Ok (Some model), o') => (Ok model, o')
  | (Ok None, o') =>
      match registry !! name mc with
      | Some c => c mc o'
      | None => (Raise KeyError, o')
      end
  | (Raise e, o') => (Raise e, o')
  end.

End Registry.

(** ** Further vocabulary *)

(** The calls that belong to training, as opposed to loading and testing. *)
Definition is_training (e : event) : bool :=
  match e with
  | EvGetDistillationBox _ _ | EvPreProcess _ | EvDistillOneEpoch _ | EvForward _
  | EvUpdateParams _ | EvSaveCkpt _ _ _ | EvPostProcess | EvBarrier
  | EvCleanModules => true
  | _ => false
  end.



(** The scores the checkpoint writes stored, in order. *)
Fixpoint saved_values (t : list event) : list float :=
  match t with
  | [] => []
  | EvSaveCkpt _ v _ :: t' => v :: saved_values t'
  | _ :: t' => saved_values t'
  end.

(** Each value strictly above the one before it, the first above [best]. *)
Fixpoint increasing (best : float) (vs : list float) : Prop :=
  match vs with
  | [] => True
  | v :: vs' => PyFloat.gt v best = true /\ increasing v vs'
  end.

(** A computation all of whose calls satisfy [P], whatever its outcome. *)
Definition emits_only {H A} (P : event -> Prop) (m : M H A) : Prop :=
  forall w, Forall P (m w).2.

(** The reference [evaluate] works on once it has wrapped the model: the
    fresh wrapper, or the model itself. *)
Definition evaluated_model (k : option wrapper) (model : nat) (h : heap) : nat :=
  match k with
  | Some _ => length h
  | None => model
  end.

(** The (value, weight) updates an evaluation makes to a metric. *)
Definition weighted (values : list float) (dl : list batch) : list (float * Z) :=
  zip values (batch_size <$> dl).

(** What one batch adds to the metric logger of an evaluation: lines 90 and
    91, for a batch and the two accuracies measured on it. *)
Definition tally (l : MetricLogger.t) (bc : batch * (float * float)) : MetricLogger.t :=
  MetricLogger.update_meter "acc5" bc.2.2 (batch_size bc.1)
    (MetricLogger.update_meter "acc1" bc.2.1 (batch_size bc.1) l).

(** The average of a metric updated by [calls] once its count and sum have
    gone through the collective, if there is one. *)
Definition synchronized_mean (reduce : option (Z * float -> Z * float))
    (calls : list (float * Z)) : result float :=
  let local := (SmoothedValue.weight_sum calls, SmoothedValue.weighted_sum calls) in
  let cs := match reduce with Some f => f local | None => local end in
  if cs.1 =? 0 then Raise ZeroDivisionError
  else Ok (cs.2 / PyFloat.of_int cs.1)%float.

(** The files after the calls [t], seen from the files before them: the
    file at [path] is the bundle of the last checkpoint write, if there was
    one. *)
Definition last_write {H} (path : string) (cfg : config) (a : args)
    (w w' : world H) (t : list event) : Prop :=
  match last (saved_values t) with
  | Some v => exists (o : objects H) (model : nat),
                files w' = <[path := snapshot o model v cfg a]> (files w)
  | None => files w' = files w
  end.

(** What [distill] does once the epochs are over: lines 129 to 135. *)
Definition is_teardown (e : event) : bool :=
  match e with
  | EvBarrier | EvCleanModules => true
  | _ => false
  end.

(** The objects as an evaluation of [model] sets them up and leaves them. *)
Definition evaluated_objects {H} (k : option wrapper) (dev : device) (model : nat)
    (ids : list Z) (o : objects H) : objects H :=
  {| modules := evaluated_heap k dev model ids (modules o);
     optimizer := optimizer o;
     lr_scheduler := lr_scheduler o;
     hidden := hidden o |}.

(** ** The epoch loop as the specification lists it (section 4.6)

    The steps of the orchestrator written as relations between the states
    they start from and lead to, independently of the code of [distill]:
    the objects of the collaborators and the checkpoint files. *)

Section Plan.

Context {H : Type} {box : Collaborators H}.
Variable ctx : DistributedContext.

(** Step 3b, one distillation pass: for each batch of the training sequence,
    in order, the collaborator computes the loss and then applies its
    parameter update. *)
Inductive pass_run : list batch -> objects H -> objects H -> Prop :=
| pass_done o : pass_run [] o o
| pass_batch b bs o o1 o2 o3 loss :
    forward_loss b o = (Ok loss, o1) ->
    update_params loss o1 = (Ok tt, o2) ->
    pass_run bs o2 o3 ->
    pass_run (b :: bs) o o3.

(** Step 3c, the validation of the student: the evaluator leaves the objects
    as an evaluation of the student does, and [v] is the top-1 accuracy of
    the student, so set up, over the validation sequence. *)
Definition validation_run (student : nat) (dev : device) (ids : list Z)
    (distributed : bool) (o : objects H) (v : float) (o' : objects H) : Prop :=
  let k := eval_wrapper distributed dev in
  o' = evaluated_objects k dev student ids o
  /\ exists accs,
       Forall2 (fun b acc =>
                  accuracy (evaluated_model k student (modules o)) b o' = Ok acc)
         (val_data_loader o) accs
       /\ synchronized_mean
            (if is_distributed ctx then Some (all_reduce o' "acc1") else None)
            (weighted (accs.*1) (val_data_loader o)) = Ok v.

(** Steps 3a to 3e, one epoch from the objects and files [s] to [s'], the
    validation scoring [v]: the setup hook, one pass, the validation, the
    checkpoint replaced if the score improves on [best], the teardown
    hook. *)
Definition epoch_run (student without_ddp : nat) (dev : device) (ids : list Z)
    (distributed : bool) (cfg : config) (a : args) (path : string)
    (epoch : Z) (best : float) (s : objects H * gmap string checkpoint) (v : float)
    (s' : objects H * gmap string checkpoint) : Prop :=
  exists o1 o2 o3,
    pre_process epoch s.1 = (Ok tt, o1)
    /\ pass_run (train_data_loader o1) o1 o2
    /\ validation_run student dev ids distributed o2 v o3
    /\ s'.2 = (if improves (is_main_process ctx) best v
               then <[path := snapshot o3 without_ddp v cfg a]> s.2
               else s.2)
    /\ post_process o3 = (Ok tt, s'.1).

(** Step 3: the epochs one after the other, each starting from the state and
    the best score the one before it left. *)
Fixpoint loop_run (student without_ddp : nat) (dev : device) (ids : list Z)
    (distributed : bool) (cfg : config) (a : args) (path : string)
    (epochs : list Z) (best : float) (s : objects H * gmap string checkpoint)
    (vs : list float) (s' : objects H * gmap string checkpoint) : Prop :=
  match epochs, vs with
  | [], [] => s' = s
  | e :: es, v :: vs' =>
      exists s1,
        epoch_run student without_ddp dev ids distributed cfg a path e best s v s1
        /\ loop_run student without_ddp dev ids distributed cfg a path es
             (next_best (is_main_process ctx) best v) s1 vs' s'
  | _, _ => False
  end.

End Plan.

(** ** More concrete runs *)

Module Scenes.

(** No module built yet, the teacher's and the student's checkpoints on
    disk. *)
Definition stocked : world Z :=
  {| objs := {| modules := []; optimizer := []; lr_scheduler := []; hidden := 0 |};
     num_threads := 8;
     files := {[ "teacher.pt"%string := Scripted.earlier;
                 "student.pt"%string := Scripted.earlier ]} |}.

(** [-test_only] *)
Definition test_args : args :=
  {| arg_config := "config.yaml"; arg_device := "cpu"; log := Some "test.log";
     start_epoch := 0; sync_bn := false; test_only := true; student_only := false;
     arg_world_size := 1; dist_url := "env://" |}.


(** Two registries that both know [resnet18]: as an adaptation class that
    fails to build, and as a custom function that builds a network. *)
Definition broken : model_builder Z := fun _ o => (Raise RuntimeError, o).

Definition adaptation_classes : gmap string (model_builder Z) :=
  {[ "resnet18"%string := broken; "resnet34"%string := Scripted.new_net ]}.

Definition custom_functions : gmap string (model_builder Z) :=
  {[ "resnet18"%string := Scripted.new_net ]}.

(** No official model under any name. *)
Definition no_official (mc : model_config) (distributed sync_bn : bool) (o : objects Z)
  : result (option nat) * objects Z := (Ok None, o).

(** The scripted box, its models built through the registry. *)
Definition registered : Collaborators Z :=
  {| get_distillation_box := get_distillation_box (Collaborators := Scripted.five);
     num_epochs := num_epochs (Collaborators := Scripted.five);
     train_data_loader := train_data_loader (Collaborators := Scripted.five);
     val_data_loader := val_data_loader (Collaborators := Scripted.five);
     pre_process := pre_process (Collaborators := Scripted.five);
     forward_loss := forward_loss (Collaborators := Scripted.five);
     update_params := update_params (Collaborators := Scripted.five);
     post_process := post_process (Collaborators := Scripted.five);
     clean_modules := clean_modules (Collaborators := Scripted.five);
     accuracy := accuracy (Collaborators := Scripted.five);
     all_reduce := all_reduce (Collaborators := Scripted.five);
     construct_model :=
       construct no_official (MODEL_DICT adaptation_classes ∅ ∅ custom_functions);
     build_data_loader := build_data_loader (Collaborators := Scripted.five) |}.

(** The scripted box, its model all right on the batch of samples 1 and
    half right on every other batch. *)
Definition graded : Collaborators Z :=
  {| get_distillation_box := get_distillation_box (Collaborators := Scripted.five);
     num_epochs := num_epochs (Collaborators := Scripted.five);
     train_data_loader := train_data_loader (Collaborators := Scripted.five);
     val_data_loader := val_data_loader (Collaborators := Scripted.five);
     pre_process := pre_process (Collaborators := Scripted.five);
     forward_loss := forward_loss (Collaborators := Scripted.five);
     update_params := update_params (Collaborators := Scripted.five);
     post_process := post_process (Collaborators := Scripted.five);
     clean_modules := clean_modules (Collaborators := Scripted.five);
     accuracy := fun _ b _ =>
       Ok (if samples b =? 1 then 1%float else 0.5%float, 1%float);
     all_reduce := all_reduce (Collaborators := Scripted.five);
     construct_model := construct_model (Collaborators := Scripted.five);
     build_data_loader := build_data_loader (Collaborators := Scripted.five) |}.

(** A batch of one sample and a batch of three. *)
Definition uneven : list batch :=
  [{| batch_size := 1; samples := 1 |}; {| batch_size := 3; samples := 2 |}].

(** The scripted box, the scoring failing on the batch of samples 2. *)
Definition flaky : Collaborators Z :=
  {| get_distillation_box := get_distillation_box (Collaborators := Scripted.five);
     num_epochs := num_epochs (Collaborators := Scripted.five);
     train_data_loader := train_data_loader (Collaborators := Scripted.five);
     val_data_loader := val_data_loader (Collaborators := Scripted.five);
     pre_process := pre_process (Collaborators := Scripted.five);
     forward_loss := forward_loss (Collaborators := Scripted.five);
     update_params := update_params (Collaborators := Scripted.five);
     post_process := post_process (Collaborators := Scripted.five);
     clean_modules := clean_modules (Collaborators := Scripted.five);
     accuracy := fun _ b _ =>
       if samples b =? 2 then Raise RuntimeError else Ok (1%float, 1%float);
     all_reduce := all_reduce (Collaborators := Scripted.five);
     construct_model := construct_model (Collaborators := Scripted.five);
     build_data_loader := build_data_loader (Collaborators := Scripted.five) |}.

(** As [Scripted.resumed], the best score of the checkpoint not a number. *)
Definition poisoned : world Z :=
  {| objs := objs Scripted.fresh; num_threads := 8;
     files := {[ "student.pt"%string :=
                   {| ck_model := ck_model Scripted.earlier;
                      ck_optimizer := ck_optimizer Scripted.earlier;
                      ck_lr_scheduler := ck_lr_scheduler Scripted.earlier;
                      ck_best_value := PrimFloat.nan;
                      ck_config := Scripted.cfg;
                      ck_args := Scripted.run_args |} ]} |}.

(** The scripted box, the setup hook failing at epoch 2. *)
Definition stalling : Collaborators Z :=
  {| get_distillation_box := get_distillation_box (Collaborators := Scripted.five);
     num_epochs := num_epochs (Collaborators := Scripted.five);
     train_data_loader := train_data_loader (Collaborators := Scripted.five);
     val_data_loader := val_data_loader (Collaborators := Scripted.five);
     pre_process := fun e o =>
       if e =? 2 then (Raise RuntimeError, o)
       else pre_process (Collaborators := Scripted.five) e o;
     forward_loss := forward_loss (Collaborators := Scripted.five);
     update_params := update_params (Collaborators := Scripted.five);
     post_process := post_process (Collaborators := Scripted.five);
     clean_modules := clean_modules (Collaborators := Scripted.five);
     accuracy := accuracy (Collaborators := Scripted.five);
     all_reduce := all_reduce (Collaborators := Scripted.five);
     construct_model := construct_model (Collaborators := Scripted.five);
     build_data_loader := build_data_loader (Collaborators := Scripted.five) |}.

(** A model the registries do not know. *)
Definition unknown : model_config := {| name := "vgg"; ckpt := "vgg.pt" |}.

End Scenes.

(** * Properties *)

(** ** The smoothed metric *)

Module SmoothedValueFacts.
Import SmoothedValue.

Lemma updates_snoc calls c m :
  updates (calls ++ [c]) m = update c.1 c.2 (updates calls m).
Proof. unfold updates. by rewrite fold_left_app. Qed.

Lemma total_updates calls : forall m,
  total (updates calls m) =
  fold_left (fun acc c => (acc + c.1 * PyFloat.of_int c.2)%float) calls (total m).
Proof. induction calls as [|c calls IH]; intros m; [done|]. apply IH. Qed.

Lemma count_updates calls : forall m,
  count (updates calls m) = fold_left (fun acc c => acc + c.2) calls (count m).
Proof. induction calls as [|c calls IH]; intros m; [done|]. apply IH. Qed.

Lemma window_size_updates calls : forall m,
  window_size (updates calls m) = window_size m.
Proof.
  induction calls as [|c calls IH]; intros m; [done|].
  simpl. by rewrite (IH (update c.1 c.2 m)).
Qed.

(** Pushing onto the last [cap] entries of [all] leaves the last [cap]
    entries of [all ++ [v]]. *)
Lemma push_drop cap (all : list float) v :
  push cap (drop (length all - cap) all) v
  = drop (length (all ++ [v]) - cap) (all ++ [v]).
Proof.
  unfold push. rewrite !length_app, length_drop. simpl.
  destruct (decide (length all < cap)%nat) as [Hlt|Hge].
  - replace (length all - cap)%nat with O by lia.
    replace (length all - 0 + 1 - cap)%nat with O by lia.
    replace (length all + 1 - cap)%nat with O by lia. done.
  - destruct cap as [|cap].
    + rewrite (drop_ge (all ++ [v])) by (rewrite length_app; simpl; lia).
      apply drop_ge. rewrite length_app, length_drop. simpl. lia.
    + replace (length all - (length all - S cap) + 1 - S cap)%nat with 1%nat by lia.
      replace (length all + 1 - S cap)%nat with (length all - S cap + 1)%nat by lia.
      rewrite (drop_app_le all) by lia.
      rewrite drop_app_le by (rewrite length_drop; lia).
      by rewrite drop_drop.
Qed.

Lemma deque_updates cap calls :
  deque (updates calls (new cap)) = drop (length calls - cap) (calls.*1).
Proof.
  induction calls as [|c calls IH] using rev_ind; [done|].
  rewrite updates_snoc. simpl. rewrite window_size_updates, IH. simpl.
  rewrite fmap_app. simpl.
  rewrite <- (length_fmap fst calls), push_drop.
  by rewrite !length_app, !length_fmap.
Qed.

End SmoothedValueFacts.

(** C5.  Whatever the window capacity and whatever the calls, [global_avg]
    after a sequence of [update(v, w)] calls is the sum of [v * w] over the
    sum of [w] taken over all the calls (failing alike when the weights sum
    to 0), while the window holds only the most recent [cap] values. *)
Theorem global_avg_ignores_window (cap : nat) (calls : list (float * Z)) :
  SmoothedValue.global_avg (SmoothedValue.updates calls (SmoothedValue.new cap))
    = SmoothedValue.weighted_mean calls
  /\ SmoothedValue.deque (SmoothedValue.updates calls (SmoothedValue.new cap))
    = drop (length calls - cap) (calls.*1).
Proof.
  split; [|apply SmoothedValueFacts.deque_updates].
  unfold SmoothedValue.global_avg, SmoothedValue.weighted_mean,
    SmoothedValue.weighted_sum, SmoothedValue.weight_sum.
  by rewrite SmoothedValueFacts.total_updates, SmoothedValueFacts.count_updates.
Qed.

(** Four samples into a window of three: the global average still counts
    the first sample, the window has dropped it. *)
Example window_of_three :
  let m := SmoothedValue.updates
             [(1%float, 1); (2%float, 1); (3%float, 1); (6%float, 1)]
             (SmoothedValue.new 3) in
  SmoothedValue.global_avg m = Ok 3%float
  /\ SmoothedValue.deque m = [2%float; 3%float; 6%float].
Proof. vm_compute. done. Qed.

(** ** Reasoning about computations *)

Section Calculus.

Context {H : Type}.

Lemma wp_elim {A} (m : M H A) Q w r w' t :
  wp m Q w -> m w = (r, w', t) -> Q r w' t.
Proof. unfold wp. intros Hwp E. by rewrite E in Hwp. Qed.

Lemma wp_equation {A} (m : M H A) (w : world H) r w' t :
  wp m (fun r0 w0 t0 => r0 = r /\ w0 = w' /\ t0 = t) w -> m w = (r, w', t).
Proof. unfold wp. destruct (m w) as [[r0 w0] t0]. by intros (-> & -> & ->). Qed.

Lemma wp_conseq {A} (m : M H A) (P Q : result A -> world H -> list event -> Prop) w :
  wp m P w -> (forall r w' t, P r w' t -> Q r w' t) -> wp m Q w.
Proof. unfold wp. destruct (m w) as [[r w'] t]. auto. Qed.

Lemma wp_bind {A B} (m : M H A) (f : A -> M H B) Q w :
  wp m (fun r w1 t1 =>
          match r with
          | Ok a => wp (f a) (fun r2 w2 t2 => Q r2 w2 (t1 ++ t2)) w1
          | Raise e => Q (Raise e) w1 t1
          end) w ->
  wp (bind m f) Q w.
Proof.
  unfold wp, bind. destruct (m w) as [[[a|e] w1] t1]; [|done].
  by destruct (f a w1) as [[r2 w2] t2].
Qed.

Lemma wp_ret {A} (a : A) (Q : result A -> world H -> list event -> Prop) w :
  Q (Ok a) w [] -> wp (ret a) Q w.
Proof. done. Qed.

Lemma wp_raise {A} e (Q : result A -> world H -> list event -> Prop) w :
  Q (Raise e) w [] -> wp (raise e) Q w.
Proof. done. Qed.

Lemma wp_lift {A} (r : result A) (Q : result A -> world H -> list event -> Prop) w :
  Q r w [] -> wp (lift r) Q w.
Proof. done. Qed.

Lemma wp_emit e (Q : result unit -> world H -> list event -> Prop) w :
  Q (Ok tt) w [e] -> wp (emit e) Q w.
Proof. done. Qed.

Lemma wp_get_objects (Q : result (objects H) -> world H -> list event -> Prop) w :
  Q (Ok (objs w)) w [] -> wp get_objects Q w.
Proof. done. Qed.

Lemma wp_get_num_threads (Q : result Z -> world H -> list event -> Prop) w :
  Q (Ok (num_threads w)) w [] -> wp get_num_threads Q w.
Proof. done. Qed.

Lemma wp_set_num_threads n (Q : result unit -> world H -> list event -> Prop) w :
  Q (Ok tt) {| objs := objs w; num_threads := n; files := files w |} [] ->
  wp (set_num_threads n) Q w.
Proof. done. Qed.

Lemma wp_modify_modules f (Q : result unit -> world H -> list event -> Prop) w :
  Q (Ok tt)
    {| objs := {| modules := f (modules (objs w)); optimizer := optimizer (objs w);
                  lr_scheduler := lr_scheduler (objs w); hidden := hidden (objs w) |};
       num_threads := num_threads w; files := files w |} [] ->
  wp (modify_modules f) Q w.
Proof. done. Qed.

Lemma wp_put_objects o (Q : result unit -> world H -> list event -> Prop) w :
  Q (Ok tt) {| objs := o; num_threads := num_threads w; files := files w |} [] ->
  wp (put_objects o) Q w.
Proof. done. Qed.

Lemma wp_read_file path (Q : result (option checkpoint) -> world H -> list event -> Prop) w :
  Q (Ok (files w !! path)) w [] -> wp (read_file path) Q w.
Proof. done. Qed.

Lemma wp_write_file path ck (Q : result unit -> world H -> list event -> Prop) w :
  Q (Ok tt) {| objs := objs w; num_threads := num_threads w;
               files := <[path := ck]> (files w) |} [] ->
  wp (write_file path ck) Q w.
Proof. done. Qed.

Lemma wp_ask {A} (f : objects H -> result A)
    (Q : result A -> world H -> list event -> Prop) w :
  Q (f (objs w)) w [] -> wp (ask f) Q w.
Proof. done. Qed.

(** A call leaves the thread count and the files alone and adds no event
    of its own. *)
Lemma wp_call {A} (f : objects H -> result A * objects H)
    (Q : result A -> world H -> list event -> Prop) w :
  (forall r o, Q r {| objs := o; num_threads := num_threads w; files := files w |} []) ->
  wp (call f) Q w.
Proof. intros HQ. unfold wp, call. destruct (f (objs w)) as [r o]. apply HQ. Qed.

Lemma wp_call_eq {A} (f : objects H -> result A * objects H)
    (Q : result A -> world H -> list event -> Prop) w r o :
  f (objs w) = (r, o) ->
  Q r {| objs := o; num_threads := num_threads w; files := files w |} [] ->
  wp (call f) Q w.
Proof. intros E HQ. unfold wp, call. by rewrite E. Qed.

Lemma steps_app t1 t2 : steps (t1 ++ t2) = steps t1 ++ steps t2.
Proof. apply List.filter_app. Qed.

Lemma saves_app t1 t2 : saves (t1 ++ t2) = saves t1 ++ saves t2.
Proof. apply List.filter_app. Qed.

Lemma wraps_app t1 t2 : wraps (t1 ++ t2) = wraps t1 ++ wraps t2.
Proof. apply List.filter_app. Qed.

(** Every checkpoint write is a step. *)
Lemma saves_steps t : saves (steps t) = saves t.
Proof.
  induction t as [|e t IH]; [done|].
  unfold saves, steps in *. simpl.
  destruct e; simpl; by rewrite ?IH.
Qed.

End Calculus.

Ltac wp_step :=
  lazymatch goal with
  | |- wp (bind _ _) _ _ => apply wp_bind
  | |- wp (ret _) _ _ => apply wp_ret
  | |- wp (raise _) _ _ => apply wp_raise
  | |- wp (lift _) _ _ => apply wp_lift
  | |- wp (emit _) _ _ => apply wp_emit
  | |- wp get_objects _ _ => apply wp_get_objects
  | |- wp get_num_threads _ _ => apply wp_get_num_threads
  | |- wp (set_num_threads _) _ _ => apply wp_set_num_threads
  | |- wp (modify_modules _) _ _ => apply wp_modify_modules
  | |- wp (ask _) _ _ => apply wp_ask
  | |- wp (put_objects _) _ _ => apply wp_put_objects
  | |- wp (read_file _) _ _ => apply wp_read_file
  | |- wp (write_file _ _) _ _ => apply wp_write_file
  end;
  cbn [objs num_threads files modules optimizer lr_scheduler hidden fst snd app].

Ltac wp_steps := repeat wp_step.

(** ** The heap *)

Module HeapFacts.
Import Heap.

Lemma alter_all_cons f r rs (h : heap) :
  alter_all f (r :: rs) h = alter f r (alter_all f rs h).
Proof. done. Qed.

Lemma alter_all_length f rs (h : heap) : length (alter_all f rs h) = length h.
Proof.
  induction rs as [|r rs IH]; [done|].
  by rewrite alter_all_cons, length_alter.
Qed.

(** Setting the mode along a list of references sets it at each of them. *)
Lemma alter_all_training mode rs (h : heap) r :
  r ∈ rs -> (r < length h)%nat ->
  training <$> (alter_all (set_training mode) rs h !! r) = Some mode.
Proof.
  intros Hin Hlt. induction rs as [|r' rs IH]; [by apply elem_of_nil in Hin|].
  rewrite alter_all_cons. destruct (decide (r = r')) as [->|Hne].
  - rewrite list_lookup_alter_eq.
    destruct (lookup_lt_is_Some_2 (alter_all (set_training mode) rs h) r') as [o Ho].
    { by rewrite alter_all_length. }
    by rewrite Ho.
  - rewrite list_lookup_alter_ne by done.
    apply IH. apply elem_of_cons in Hin as [?|?]; [done|done].
Qed.

Lemma modules_of_self (h : heap) r : (r < length h)%nat -> r ∈ modules_of h r.
Proof.
  unfold modules_of. destruct (length h) as [|n]; [lia|].
  intros _. simpl. apply elem_of_cons. by left.
Qed.

Lemma to_length d r (h : heap) : length (to d r h) = length h.
Proof. apply alter_all_length. Qed.

Lemma train_length mode r (h : heap) : length (train mode r h) = length h.
Proof. apply alter_all_length. Qed.

(** A fresh wrapper contains the module it wraps. *)
Lemma modules_of_wrap k r ids (h : heap) :
  (r < length h)%nat ->
  r ∈ modules_of (wrap k r ids h).1 (wrap k r ids h).2.
Proof.
  intros Hlt. unfold modules_of, wrap. simpl.
  rewrite length_app. simpl.
  replace (length h + 1)%nat with (S (length h)) by lia.
  simpl. rewrite list_lookup_middle by done. simpl.
  apply elem_of_cons. right.
  destruct (length h) as [|n]; [lia|]. simpl. apply elem_of_cons. by left.
Qed.

(** [model.eval()] on the model or on a fresh wrapper around it puts the
    model itself in inference mode. *)
Lemma evaluated_heap_training k dev model ids (h : heap) :
  (model < length h)%nat ->
  training <$> (evaluated_heap k dev model ids h !! model) = Some false.
Proof.
  intros Hlt. unfold evaluated_heap. destruct k as [k|].
  - cbv zeta. unfold train. apply alter_all_training.
    + apply modules_of_wrap. by rewrite to_length.
    + unfold wrap. simpl. rewrite length_app, to_length. lia.
  - cbv zeta. unfold train. apply alter_all_training.
    + apply modules_of_self. by rewrite to_length.
    + by rewrite to_length.
Qed.

Lemma evaluated_heap_length k dev model ids (h : heap) :
  length (evaluated_heap k dev model ids h)
  = (length h + match k with Some _ => 1 | None => 0 end)%nat.
Proof.
  unfold evaluated_heap. destruct k as [k|]; cbv zeta.
  - rewrite train_length. unfold wrap. simpl. by rewrite length_app, to_length.
  - rewrite train_length, to_length. lia.
Qed.

Lemma check_if_wrapped_module_of (h : heap) r :
  check_if_wrapped h r = true -> is_Some (module_of h r).
Proof.
  unfold check_if_wrapped, module_of.
  destruct (h !! r) as [[tr pl [ps|k c ids]]|]; simpl; try done.
Qed.

End HeapFacts.

(** ** The evaluator *)

Section EvaluateFacts.

Context {H : Type} {box : Collaborators H}.
Variable ctx : DistributedContext.

Lemma wp_global_avg_of name l (Q : result float -> world H -> list event -> Prop) w :
  Q (global_avg_at name l) w [] -> wp (global_avg_of name l) Q w.
Proof.
  intros HQ. unfold global_avg_of, global_avg_at in *. wp_steps.
  destruct (MetricLogger.getattr name l) as [m|e]; [|done].
  wp_steps. by destruct (SmoothedValue.global_avg m).
Qed.

(** The loop over the batches reads the objects and accumulates the two
    accuracies; it changes nothing and calls nothing the trace records. *)
Lemma wp_accumulate model dl : forall l (Q : result MetricLogger.t -> world H -> list event -> Prop) w,
  (forall r, Q r w []) ->
  wp (for_each dl l (fun b l =>
        bind (ask (accuracy model b)) (fun acc =>
          ret (MetricLogger.update_meter "acc5" acc.2 (batch_size b)
                 (MetricLogger.update_meter "acc1" acc.1 (batch_size b) l))))) Q w.
Proof.
  induction dl as [|b dl IH]; intros l Q w HQ; simpl.
  - by apply wp_ret.
  - wp_steps. destruct (accuracy model b (objs w)) as [acc|e]; [|apply HQ].
    wp_steps. apply IH. intros r. apply HQ.
Qed.

Lemma evaluate_spec model dl dev ids distributed header (w : world H) :
  wp (evaluate ctx model dl dev ids distributed header)
    (fun r w' t =>
       files w' = files w
       /\ optimizer (objs w') = optimizer (objs w)
       /\ lr_scheduler (objs w') = lr_scheduler (objs w)
       /\ hidden (objs w') = hidden (objs w)
       /\ modules (objs w')
          = evaluated_heap (eval_wrapper distributed dev) dev model ids (modules (objs w))
       /\ wraps t = match eval_wrapper distributed dev with
                    | Some k => [EvWrap k model ids]
                    | None => []
                    end
       /\ match r with
          | Ok v => num_threads w' = num_threads w
                    /\ exists top5, steps t = [EvEvaluate model header; EvAccuracy v top5]
          | Raise _ => num_threads w' = 1 /\ steps t = [EvEvaluate model header]
          end) w.
Proof.
  unfold evaluate, eval_wrapper, evaluated_heap, synchronize_between_processes.
  wp_steps.
  destruct distributed; [|destruct (String.prefix "cuda" (type dev))];
    unfold wrap; wp_steps.
  all: apply wp_accumulate; intros [l|e]; [|by repeat split].
  all: wp_steps.
  all: set (l' := if is_distributed ctx then _ else _).
  all: apply wp_global_avg_of.
  all: destruct (global_avg_at "acc1" l') as [top1|e] eqn:E1; [|by repeat split].
  all: cbv beta iota; wp_steps; apply wp_global_avg_of.
  all: destruct (global_avg_at "acc5" l') as [top5|e] eqn:E5; [|by repeat split].
  all: cbv beta iota; wp_steps.
  all: apply wp_global_avg_of; rewrite E1.
  all: repeat split; eauto.
Qed.

End EvaluateFacts.

(** C6, as the code has it.  An evaluation wraps the model in
    [DistributedDataParallel] when [distributed] is set, else in
    [DataParallel] when the device type starts with [cuda], whatever the
    number of device ids, and else not at all: only then does the model get
    plain device placement, no new module object being created. *)
Theorem evaluate_wraps_by_flag_and_device {H : Type} {box : Collaborators H}
    (ctx : DistributedContext) model dl dev ids distributed header
    (w w' : world H) r t :
  evaluate ctx model dl dev ids distributed header w = (r, w', t) ->
  wraps t = (if distributed then [EvWrap DistributedDataParallel model ids]
             else if String.prefix "cuda" (type dev)
                  then [EvWrap DataParallel model ids]
                  else [])
  /\ length (modules (objs w'))
     = (length (modules (objs w))
        + (if distributed || String.prefix "cuda" (type dev) then 1 else 0))%nat.
Proof.
  intros Hrun.
  pose proof (wp_elim _ _ _ _ _ _
                (evaluate_spec ctx model dl dev ids distributed header w) Hrun)
    as (_ & _ & _ & _ & Hheap & Hwraps & _).
  rewrite Hheap, HeapFacts.evaluated_heap_length, Hwraps. unfold eval_wrapper.
  destruct distributed; [done|]. by destruct (String.prefix "cuda" (type dev)).
Qed.

Lemma evaluate_wraps_by_flag_and_device_witness :
  wraps (evaluate (box := Scripted.five) Scripted.single 1%nat Scripted.one
           Scripted.cpu [] false "Test:" Scripted.fresh).2 = []
  /\ length (modules (objs
       (evaluate (box := Scripted.five) Scripted.single 1%nat Scripted.one
          Scripted.cpu [] false "Test:" Scripted.fresh).1.2)) = 2%nat.
Proof.
  eapply (evaluate_wraps_by_flag_and_device (box := Scripted.five)
           Scripted.single 1%nat Scripted.one
           Scripted.cpu [] false "Test:" Scripted.fresh _ (Ok 0.5%float) _).
  vm_compute. reflexivity.
Defined.

(** The test of line 72 is on the prefix of the device type. *)
Example cuda_device_types :
  String.prefix "cuda" "cuda" = true /\ String.prefix "cuda" "cuda:1" = true
  /\ String.prefix "cuda" "cpu" = false.
Proof. by vm_compute. Qed.

(** C6, counterexample.  Not distributed and a single device, [cuda] with
    the one device id 0: the evaluation wraps the model in [DataParallel],
    a third module object next to the teacher and the student. *)
Lemma evaluate_wraps_single_cuda_device :
  exists v w' t,
    evaluate (box := Scripted.five) Scripted.single 1%nat
      Scripted.one Scripted.cuda [0] false "Test:"
      Scripted.fresh = (Ok v, w', t)
    /\ wraps t = [EvWrap DataParallel 1%nat [0]]
    /\ body <$> (modules (objs w') !! 2%nat) = Some (Wrapped DataParallel 1%nat [0]).
Proof. do 3 eexists. vm_compute. repeat split; reflexivity. Qed.

(** C7, as the code has it.  An evaluation puts the model in inference mode
    and leaves it there: when [evaluate] returns, and also when it raises
    while iterating or averaging, the model it was given is not in training
    mode, whatever its mode before the call. *)
Theorem evaluate_leaves_inference_mode {H : Type} {box : Collaborators H}
    (ctx : DistributedContext) model dl dev ids distributed header
    (w w' : world H) r t :
  is_Some (modules (objs w) !! model) ->
  evaluate ctx model dl dev ids distributed header w = (r, w', t) ->
  training <$> (modules (objs w') !! model) = Some false.
Proof.
  intros Hmodel Hrun.
  pose proof (wp_elim _ _ _ _ _ _
                (evaluate_spec ctx model dl dev ids distributed header w) Hrun)
    as (_ & _ & _ & _ & Hheap & _).
  rewrite Hheap. apply HeapFacts.evaluated_heap_training.
  by apply lookup_lt_is_Some.
Qed.

Lemma evaluate_leaves_inference_mode_witness :
  training <$> (modules (objs
    (evaluate (box := Scripted.five) Scripted.single 1%nat Scripted.one
       Scripted.cuda [0] false "Test:" Scripted.fresh).1.2) !! 1%nat) = Some false.
Proof.
  eapply (evaluate_leaves_inference_mode (box := Scripted.five)
           Scripted.single 1%nat Scripted.one
           Scripted.cuda [0] false "Test:" Scripted.fresh _ (Ok 0.5%float) _).
  - vm_compute. eexists. reflexivity.
  - vm_compute. reflexivity.
Defined.

(** C7, counterexample.  The student is in training mode, the evaluation
    returns, and the student is in inference mode. *)
Lemma evaluate_does_not_restore_training_mode :
  exists v w' t,
    evaluate (box := Scripted.five) Scripted.single 1%nat
      Scripted.one Scripted.cpu [] false "Test:"
      Scripted.fresh = (Ok v, w', t)
    /\ training <$> (modules (objs Scripted.fresh) !! 1%nat) = Some true
    /\ training <$> (modules (objs w') !! 1%nat) = Some false.
Proof. do 3 eexists. vm_compute. repeat split; reflexivity. Qed.

(** C10.  When [evaluate] returns, torch's global thread count is what it
    was on entry.  The batches are evaluated with the count at 1: that is
    where an evaluation that raises while iterating or averaging leaves it,
    there being no [try]/[finally] around the restore. *)
Theorem evaluate_restores_num_threads {H : Type} {box : Collaborators H}
    (ctx : DistributedContext) model dl dev ids distributed header
    (w w' : world H) r t :
  evaluate ctx model dl dev ids distributed header w = (r, w', t) ->
  match r with
  | Ok _ => num_threads w' = num_threads w
  | Raise _ => num_threads w' = 1
  end.
Proof.
  intros Hrun.
  pose proof (wp_elim _ _ _ _ _ _
                (evaluate_spec ctx model dl dev ids distributed header w) Hrun)
    as (_ & _ & _ & _ & _ & _ & Hr).
  destruct r; tauto.
Qed.

Lemma evaluate_restores_num_threads_witness :
  num_threads
    (evaluate (box := Scripted.five) Scripted.single 1%nat Scripted.one
       Scripted.cuda [0] false "Test:" Scripted.fresh).1.2 = 8.
Proof.
  eapply (evaluate_restores_num_threads (box := Scripted.five)
           Scripted.single 1%nat Scripted.one
           Scripted.cuda [0] false "Test:" Scripted.fresh _ (Ok 0.5%float) _).
  vm_compute. reflexivity.
Defined.

(** ** The epoch loop *)

Section DistillFacts.

Context {H : Type} {box : Collaborators H}.
Variable ctx : DistributedContext.

Lemma reports_app t1 t2 : reports (t1 ++ t2) = reports t1 ++ reports t2.
Proof.
  induction t1 as [|e t1 IH]; [done|].
  destruct e; simpl; by rewrite ?IH.
Qed.

(** The reports are among the steps. *)
Lemma reports_steps t : reports (steps t) = reports t.
Proof.
  induction t as [|e t IH]; [done|].
  unfold steps in *. destruct e; simpl; by rewrite ?IH.
Qed.

(** The batches of a pass: forward and update, nothing the loop counts as
    a step, and neither the files nor the thread count touched. *)
Lemma wp_pass bs : forall (u : unit) (Q : result unit -> world H -> list event -> Prop) w,
  (forall r o t, steps t = [] ->
     Q r {| objs := o; num_threads := num_threads w; files := files w |} t) ->
  wp (for_each bs u (fun b _ =>
        bind (emit (EvForward b)) (fun _ =>
          bind (call (forward_loss b)) (fun loss =>
            bind (emit (EvUpdateParams loss)) (fun _ =>
              call (update_params loss)))))) Q w.
Proof.
  induction bs as [|b bs IH]; intros u Q w HQ; simpl.
  - apply wp_ret. destruct w as [o n f]. by apply (HQ _ o).
  - wp_steps. apply wp_call. intros [loss|e] o; [|by apply HQ].
    wp_steps. apply wp_call. intros [[]|e] o'; [|by apply HQ].
    apply IH. intros r o'' t Ht. cbn. apply HQ. exact Ht.
Qed.

Lemma distill_one_epoch_spec epoch (w : world H) :
  wp (distill_one_epoch epoch)
    (fun r w' t =>
       files w' = files w /\ num_threads w' = num_threads w
       /\ steps t = [EvDistillOneEpoch epoch]) w.
Proof.
  unfold distill_one_epoch. wp_steps. apply wp_pass.
  intros r o t Ht. repeat split. unfold steps in *. simpl. by rewrite Ht.
Qed.

(** One epoch, whatever its outcome.  Either it raised before the
    evaluator reported a score, and then it wrote nothing; or the
    validation scored [v], the steps are those of a whole epoch, and the
    checkpoint was replaced exactly when [v] improves on [best]. *)
Lemma distill_epoch_spec student swd dev ids distributed cfg a path epoch best
    (w : world H) :
  wp (distill_epoch ctx student swd dev ids distributed cfg a path epoch best)
    (fun r w' t =>
       let main := is_main_process ctx in
       ((exists e, r = Raise e) /\ files w' = files w
        /\ (steps t = [EvPreProcess epoch]
            \/ steps t = [EvPreProcess epoch; EvDistillOneEpoch epoch]
            \/ steps t = [EvPreProcess epoch; EvDistillOneEpoch epoch;
                          EvEvaluate student "Validation:"]))
       \/ (exists v t5,
             steps t = epoch_steps student swd path main epoch best v t5
             /\ (r = Ok (next_best main best v) \/ exists e, r = Raise e)
             /\ if improves main best v
                then exists o : objects H,
                       files w' = <[path := snapshot o swd v cfg a]> (files w)
                else files w' = files w)) w.
Proof.
  unfold distill_epoch. wp_steps. apply wp_call. intros [[]|e] o1.
  2:{ left. eauto 10. }
  wp_steps. eapply wp_conseq; [apply distill_one_epoch_spec|].
  intros r w2 t2 (Hf2 & _ & Hs2). cbn in Hf2.
  destruct r as [[]|e].
  2:{ left. rewrite Hf2. split; [eauto|]. split; [done|].
      right. left. cbn. unfold steps in *. simpl. by rewrite Hs2. }
  wp_steps. eapply wp_conseq; [apply evaluate_spec|].
  intros r w3 t3 (Hf3 & _ & _ & _ & _ & _ & Hr3).
  destruct r as [v|e].
  2:{ left. destruct Hr3 as [_ Hs3]. rewrite Hf3, Hf2. split; [eauto|]. split; [done|].
      right. right. unfold steps in *. simpl.
      by rewrite !List.filter_app, Hs2, Hs3. }
  destruct Hr3 as [_ [t5 Hs3]].
  assert (forall tl, steps (EvPreProcess epoch :: t2 ++ t3 ++ tl)
                     = [EvPreProcess epoch; EvDistillOneEpoch epoch;
                        EvEvaluate student "Validation:"; EvAccuracy v t5] ++ steps tl)
    as Hsteps.
  { intros tl. unfold steps in *. simpl. by rewrite !List.filter_app, Hs2, Hs3. }
  wp_steps. fold (improves (is_main_process ctx) best v).
  destruct (improves (is_main_process ctx) best v) eqn:Himp.
  - unfold save_ckpt. wp_steps. apply wp_call.
    intros [[]|e] o4; [wp_steps|]; cbn [files num_threads objs].
    all: right; exists v, t5; rewrite Hsteps.
    all: unfold epoch_steps, next_best; rewrite Himp.
    all: split; [done|]; split; [eauto|].
    all: eexists; by rewrite Hf3, Hf2.
  - wp_steps. apply wp_call.
    intros [[]|e] o4; [wp_steps|]; cbn [files num_threads objs].
    all: right; exists v, t5; rewrite Hsteps.
    all: unfold epoch_steps, next_best; rewrite Himp.
    all: split; [done|]; split; [eauto|].
    all: by rewrite Hf3, Hf2.
Qed.

Lemma loop_steps_no_scores student swd path main epochs best :
  loop_steps student swd path main epochs best [] = [].
Proof. by destruct epochs. Qed.

Lemma loop_steps_cons student swd path main e es best v t5 ss :
  loop_steps student swd path main (e :: es) best ((v, t5) :: ss)
  = epoch_steps student swd path main e best v t5
    ++ loop_steps student swd path main es (next_best main best v) ss.
Proof. done. Qed.

Lemma improves_not_main best v : improves false best v = false.
Proof. unfold improves. apply andb_false_r. Qed.

(** The loop, whatever its outcome: the steps are those of the epochs
    whose validation reported a score, then those of an epoch that raised
    before its report, if any; a process that is not the main one leaves
    the files alone. *)
Lemma loop_spec student swd dev ids distributed cfg a path epochs :
  forall best (w : world H),
  wp (for_each epochs best
        (distill_epoch ctx student swd dev ids distributed cfg a path))
    (fun r w' t =>
       let main := is_main_process ctx in
       exists scores tail,
         steps t = loop_steps student swd path main epochs best scores ++ tail
         /\ saves tail = [] /\ reports tail = []
         /\ (main = false -> files w' = files w)
         /\ (files w' = files w
             \/ exists (o : objects H) v,
                  files w' = <[path := snapshot o swd v cfg a]> (files w))
         /\ match r with
            | Ok b => tail = [] /\ length scores = length epochs
                      /\ b = fold_left (next_best main) (scores.*1) best
            | Raise _ => True
            end) w.
Proof.
  induction epochs as [|e es IH]; intros best w; cbn [for_each].
  - apply wp_ret. exists [], []. repeat split; auto.
  - apply wp_bind. eapply wp_conseq; [apply distill_epoch_spec|].
    intros r w1 t1 [([e0 ->] & Hf & Hs)|(v & t5 & Hs & Hr & Hfiles)].
    + exists [], (steps t1). rewrite (saves_steps t1), <- (saves_steps t1).
      split; [done|]. split; [|split; [|by auto]].
      * destruct Hs as [->|[->| ->]]; done.
      * rewrite reports_steps, <- reports_steps.
        destruct Hs as [->|[->| ->]]; done.
    + assert (files w1 = files w
              \/ exists (o : objects H) v,
                   files w1 = <[path := snapshot o swd v cfg a]> (files w))
        as Hw1.
      { destruct (improves (is_main_process ctx) best v); [right|by left].
        destruct Hfiles as [o Ho]. eauto. }
      assert (is_main_process ctx = false -> files w1 = files w) as Hnm.
      { intros Hmain. rewrite Hmain, improves_not_main in Hfiles. done. }
      destruct Hr as [->|[e0 ->]].
      * eapply wp_conseq; [apply IH|].
        intros r2 w2 t2 (scores & tail & Hs2 & Hsv & Hrp & Hf2 & Hw2 & Hr2).
        exists ((v, t5) :: scores), tail.
        rewrite steps_app, Hs, Hs2, loop_steps_cons, <- app_assoc.
        split; [done|]. split; [done|]. split; [done|]. split; [|split].
        -- intros Hmain. rewrite Hf2 by done. auto.
        -- destruct Hw2 as [->|(o2 & v2 & ->)]; [done|]. right. exists o2, v2.
           destruct Hw1 as [->|(o1 & v1 & ->)]; [done|].
           by rewrite insert_insert_eq.
        -- destruct r2 as [b|]; [|done].
           destruct Hr2 as (-> & Hlen & ->). simpl. by rewrite Hlen.
      * exists [(v, t5)], []. rewrite loop_steps_cons.
        rewrite loop_steps_no_scores, !app_nil_r. auto 10.
Qed.

Lemma wp_without_ddp student (Q : result ref -> world H -> list event -> Prop) w :
  Q (Ok (underlying (modules (objs w)) student)) w [] ->
  wp (student_model_without_ddp student) Q w.
Proof.
  intros HQ. unfold student_model_without_ddp, underlying in *. wp_steps.
  destruct (Heap.check_if_wrapped (modules (objs w)) student) eqn:E.
  - destruct (HeapFacts.check_if_wrapped_module_of _ _ E) as [c Hc].
    rewrite Hc in *. by wp_steps.
  - wp_steps. revert E HQ. unfold Heap.check_if_wrapped, Heap.module_of.
    by destruct (modules (objs w) !! student) as [[tr pl [ps|k c ids]]|].
Qed.

(** What [distill] does before the loop. *)
Lemma distill_setup_spec teacher student distributed cfg (w : world H) :
  wp (distill_setup teacher student distributed cfg)
    (fun r w' t =>
       let ck := files w !! ckpt (student_model cfg) in
       match get_distillation_box teacher student distributed (objs w) with
       | (Raise e, o1) =>
           r = Raise e
           /\ w' = {| objs := o1; num_threads := num_threads w; files := files w |}
           /\ t = [EvGetDistillationBox teacher student]
       | (Ok _, o1) =>
           r = Ok (initial_best ck, underlying (modules o1) student)
           /\ w' = {| objs := restore_from ck o1; num_threads := num_threads w;
                      files := files w |}
           /\ t = EvGetDistillationBox teacher student
                  :: match ck with
                     | Some _ => [EvLoadCkpt (ckpt (student_model cfg)) None true]
                     | None => []
                     end
       end) w.
Proof.
  unfold distill_setup, resume_best_score, check_if_exists, load_ckpt. wp_steps.
  destruct (get_distillation_box teacher student distributed (objs w))
    as [[[]|e] o1] eqn:E; (eapply wp_call_eq; [exact E|]); cbv beta iota; [|done].
  wp_steps.
  destruct (files w !! ckpt (student_model cfg)) as [ck|] eqn:Eck.
  - rewrite bool_decide_true by eauto. wp_steps. rewrite Eck. wp_steps.
    apply wp_without_ddp. wp_steps. done.
  - rewrite bool_decide_false by (by intros [? ?]). wp_steps.
    apply wp_without_ddp. wp_steps. done.
Qed.

(** A run of [distill], whatever its outcome. *)
Lemma distill_spec teacher student dev ids distributed start cfg a (w : world H) :
  wp (distill ctx teacher student dev ids distributed start cfg a)
    (fun r w' t =>
       let path := ckpt (student_model cfg) in
       let main := is_main_process ctx in
       let ck := files w !! path in
       match get_distillation_box teacher student distributed (objs w) with
       | (Raise e, o1) =>
           r = Raise e /\ t = [EvGetDistillationBox teacher student]
           /\ files w' = files w
       | (Ok _, o1) =>
           let epochs := range start (num_epochs (restore_from ck o1)) in
           (files w' = files w
            \/ exists (o : objects H) v,
                 files w' = <[path := snapshot o (underlying (modules o1) student)
                                        v cfg a]> (files w))
           /\ exists scores tail,
             steps t
             = EvGetDistillationBox teacher student
               :: match ck with Some _ => [EvLoadCkpt path None true] | None => [] end
               ++ loop_steps student (underlying (modules o1) student) path main
                    epochs (initial_best ck) scores
               ++ tail
             /\ saves tail = [] /\ reports tail = []
             /\ (main = false -> files w' = files w)
             /\ match r with
                | Ok _ =>
                    length scores = length epochs
                    /\ tail = (if distributed then [EvBarrier] else [])
                              ++ [EvCleanModules]
                | Raise _ => True
                end
       end) w.
Proof.
  unfold distill. apply wp_bind.
  eapply wp_conseq; [apply distill_setup_spec|]. intros r1 w1 t1. cbv zeta.
  destruct (get_distillation_box teacher student distributed (objs w))
    as [[[]|e] o1]; intros (-> & -> & ->); [|done].
  set (ck := files w !! ckpt (student_model cfg)).
  assert (forall tl,
    steps (EvGetDistillationBox teacher student
           :: match ck with
              | Some _ => [EvLoadCkpt (ckpt (student_model cfg)) None true]
              | None => []
              end ++ tl)
    = EvGetDistillationBox teacher student
      :: match ck with
         | Some _ => [EvLoadCkpt (ckpt (student_model cfg)) None true]
         | None => []
         end ++ steps tl) as Hsetup.
  { intros tl. by destruct ck. }
  wp_steps. eapply wp_conseq; [apply loop_spec|].
  intros r2 w2 t2 (scores & tail & Hs & Hsv & Hrp & Hf & Hw & Hr).
  cbn [files] in Hf, Hw. destruct r2 as [b|e].
  - destruct Hr as (-> & Hlen & _). rewrite app_nil_r in Hs.
    destruct distributed; wp_steps; apply wp_call; intros r o.
    all: split; [exact Hw|].
    all: eexists scores, _.
    all: rewrite Hsetup, !steps_app, Hs.
    all: split; [reflexivity|]; split; [done|]; split; [done|]; split; [done|].
    all: by destruct r.
  - split; [exact Hw|]. exists scores, tail. by rewrite Hsetup, Hs.
Qed.

End DistillFacts.

Lemma saves_epoch_steps student swd path main epoch best v t5 :
  saves (epoch_steps student swd path main epoch best v t5)
  = if improves main best v then [EvSaveCkpt swd v path] else [].
Proof. unfold epoch_steps. by destruct (improves main best v). Qed.


(** Every write of the loop is a write of [swd] to [path]. *)
Lemma saves_loop_steps student swd path main epochs : forall best scores,
  Forall (fun ev => exists v, ev = EvSaveCkpt swd v path)
    (saves (loop_steps student swd path main epochs best scores)).
Proof.
  induction epochs as [|e es IH]; intros best [|[v t5] ss]; try by constructor.
  rewrite loop_steps_cons, saves_app, saves_epoch_steps.
  apply Forall_app. split; [|apply IH].
  destruct (improves main best v); repeat constructor. eauto.
Qed.

(** A process that is not the main one writes in no epoch. *)
Lemma saves_loop_steps_not_main student swd path epochs : forall best scores,
  saves (loop_steps student swd path false epochs best scores) = [].
Proof.
  induction epochs as [|e es IH]; intros best [|[v t5] ss]; try done.
  by rewrite loop_steps_cons, saves_app, saves_epoch_steps, improves_not_main, IH.
Qed.

(** [range(a, b)] counts from [a] up, one by one, and stops before [b]. *)
Lemma range_lookup a b (i : nat) :
  range a b !! i = if decide (a + Z.of_nat i < b) then Some (a + Z.of_nat i) else None.
Proof.
  unfold range. rewrite list_lookup_fmap.
  destruct (decide (a + Z.of_nat i < b)) as [Hlt|Hge].
  - rewrite (lookup_seq_lt 0 (Z.to_nat (b - a)) i) by lia. done.
  - rewrite lookup_seq_ge by lia. done.
Qed.




(** C2.  Once the distillation box is built, [distill] settles the best
    score before entering the loop.  With no file at the student's
    checkpoint path the score is 0.0, nothing is loaded and nothing raises;
    with a file there, the score is the file's best value and the optimizer
    and the scheduler of the box take the state the file holds. *)
Theorem best_score_starts_from_checkpoint {H : Type} {box : Collaborators H}
    teacher student distributed cfg (w : world H) o1 :
  get_distillation_box teacher student distributed (objs w) = (Ok tt, o1) ->
  distill_setup teacher student distributed cfg w
  = match files w !! ckpt (student_model cfg) with
    | None =>
        (Ok (0%float, underlying (modules o1) student),
         {| objs := o1; num_threads := num_threads w; files := files w |},
         [EvGetDistillationBox teacher student])
    | Some ck =>
        (Ok (ck_best_value ck, underlying (modules o1) student),
         {| objs := {| modules := modules o1;
                       optimizer := ck_optimizer ck;
                       lr_scheduler := ck_lr_scheduler ck;
                       hidden := hidden o1 |};
            num_threads := num_threads w; files := files w |},
         [EvGetDistillationBox teacher student;
          EvLoadCkpt (ckpt (student_model cfg)) None true])
    end.
Proof.
  intros Hbox.
  pose proof (distill_setup_spec teacher student distributed cfg w) as Hspec.
  cbv zeta in Hspec. rewrite Hbox in Hspec.
  destruct (files w !! ckpt (student_model cfg)) as [ck|]; by apply wp_equation.
Qed.

Lemma best_score_starts_from_checkpoint_witness :
  (distill_setup (box := Scripted.five) 0%nat 1%nat false Scripted.cfg
     Scripted.resumed).1.1 = Ok (0.6%float, 1%nat)
  /\ optimizer (objs (distill_setup (box := Scripted.five) 0%nat 1%nat false
                        Scripted.cfg Scripted.resumed).1.2)
     = [("momentum"%string, 3)].
Proof.
  rewrite (best_score_starts_from_checkpoint (box := Scripted.five) 0%nat 1%nat false
             Scripted.cfg Scripted.resumed (objs Scripted.resumed) eq_refl).
  vm_compute. split; reflexivity.
Defined.

(** With no checkpoint on disk the run starts from 0.0 and loads nothing. *)
Example best_score_from_scratch :
  distill_setup (box := Scripted.five) 0%nat 1%nat false Scripted.cfg Scripted.fresh
  = (Ok (0%float, 1%nat), Scripted.fresh, [EvGetDistillationBox 0%nat 1%nat]).
Proof. by vm_compute. Qed.

(** C3.  A process that is not the main one, which is to say a process of
    non-zero rank in a distributed run, writes no checkpoint in any run of
    [distill], whether the run returns or raises and whatever the
    validation scores: no call to [save_ckpt], and the files are as they
    were. *)
Theorem non_main_process_never_writes {H : Type} {box : Collaborators H}
    ctx teacher student dev ids distributed start cfg a (w w' : world H) r t :
  is_main_process ctx = false ->
  distill ctx teacher student dev ids distributed start cfg a w = (r, w', t) ->
  saves t = [] /\ files w' = files w.
Proof.
  intros Hmain Hrun.
  pose proof (wp_elim _ _ _ _ _ _
    (distill_spec ctx teacher student dev ids distributed start cfg a w) Hrun) as Hspec.
  cbv zeta in Hspec.
  destruct (get_distillation_box teacher student distributed (objs w)) as [[[]|e] o1].
  - destruct Hspec as (_ & scores & tail & Hs & Hsv & _ & Hf & _).
    split; [|by apply Hf].
    rewrite <- saves_steps, Hs, Hmain.
    change (?x :: ?l) with ([x] ++ l).
    rewrite !saves_app, saves_loop_steps_not_main, Hsv.
    by destruct (files w !! ckpt (student_model cfg)).
  - by destruct Hspec as (_ & -> & ->).
Qed.

Lemma non_main_process_never_writes_witness :
  saves (distill (box := Scripted.five) Scripted.worker 0%nat 1%nat Scripted.cuda [1]
           true 0 Scripted.cfg Scripted.run_args Scripted.fresh).2 = []
  /\ files (distill (box := Scripted.five) Scripted.worker 0%nat 1%nat Scripted.cuda [1]
              true 0 Scripted.cfg Scripted.run_args Scripted.fresh).1.2
     = files Scripted.fresh.
Proof.
  eapply (non_main_process_never_writes (box := Scripted.five) Scripted.worker
            0%nat 1%nat Scripted.cuda [1] true 0 Scripted.cfg Scripted.run_args
            Scripted.fresh _ (Ok tt) _).
  - reflexivity.
  - vm_compute. reflexivity.
Defined.

(** A process that is not the main one is a distributed one of non-zero rank. *)
Remark not_main_is_distributed_worker ctx :
  is_main_process ctx = false <-> is_distributed ctx = true /\ rank ctx <> 0.
Proof.
  unfold is_main_process. destruct (is_distributed ctx); simpl.
  - rewrite orb_false_r, Z.eqb_neq. tauto.
  - rewrite orb_true_r. split; [done|]. by intros [? _].
Qed.

(** The steps of that run, written out: the second epoch scores below the
    first and writes nothing. *)
Example two_epochs :
  steps (distill (box := Scripted.box [0.5%float; 0.4%float] 2) Scripted.single
           0%nat 1%nat Scripted.cpu [] false 0 Scripted.cfg Scripted.run_args
           Scripted.fresh).2
  = [EvGetDistillationBox 0%nat 1%nat;
     EvPreProcess 0; EvDistillOneEpoch 0; EvEvaluate 1%nat "Validation:";
     EvAccuracy 0.5%float 1%float; EvSaveCkpt 1%nat 0.5%float "student.pt";
     EvPostProcess;
     EvPreProcess 1; EvDistillOneEpoch 1; EvEvaluate 1%nat "Validation:";
     EvAccuracy 0.4%float 1%float; EvPostProcess;
     EvCleanModules].
Proof. by vm_compute. Qed.

Lemma state_dict_of_net (h : heap) c ps :
  body <$> (h !! c) = Some (Net ps) -> Heap.state_dict_of h c = ps.
Proof.
  intros Hc. unfold Heap.state_dict_of.
  destruct (h !! c) as [[tr pl bd]|] eqn:E; [|done].
  simpl in Hc. injection Hc as ->.
  assert (c < length h)%nat as Hlt by (apply lookup_lt_is_Some; eauto).
  destruct (length h) as [|n]; [lia|]. simpl. by rewrite E.
Qed.

(** C8.  In any run of [distill], every checkpoint write is given the
    student as it stands without its parallel wrapper, taken once the box is
    built: the wrapped module if the student is a wrapper, the student
    itself if not.  The file at the checkpoint path is then either as it
    was or a snapshot of that module, and the snapshot of a module that has
    parameters of its own holds exactly these, under their own names. *)
Theorem checkpoints_hold_unwrapped_student {H : Type} {box : Collaborators H}
    ctx teacher student dev ids distributed start cfg a (w w' : world H) r t r0 o1 :
  get_distillation_box teacher student distributed (objs w) = (r0, o1) ->
  distill ctx teacher student dev ids distributed start cfg a w = (r, w', t) ->
  let without_ddp := match Heap.module_of (modules o1) student with
                     | Some m => m
                     | None => student
                     end in
  let path := ckpt (student_model cfg) in
  Forall (fun ev => exists v, ev = EvSaveCkpt without_ddp v path) (saves t)
  /\ (files w' = files w
      \/ exists (o : objects H) v,
           files w' = <[path := snapshot o without_ddp v cfg a]> (files w))
  /\ forall (o : objects H) ps v,
       body <$> (modules o !! without_ddp) = Some (Net ps) ->
       ck_model (snapshot o without_ddp v cfg a) = ps.
Proof.
  intros Hbox Hrun. cbv zeta.
  pose proof (wp_elim _ _ _ _ _ _
    (distill_spec ctx teacher student dev ids distributed start cfg a w) Hrun) as Hspec.
  cbv zeta in Hspec. rewrite Hbox in Hspec.
  change (match Heap.module_of (modules o1) student with
          | Some m => m
          | None => student
          end) with (underlying (modules o1) student).
  split; [|split].
  - destruct r0 as [[]|e].
    + destruct Hspec as (_ & scores & tail & Hs & Hsv & _).
      rewrite <- saves_steps, Hs.
      change (?x :: ?l) with ([x] ++ l).
      rewrite !saves_app, Hsv, app_nil_r.
      replace (saves match files w !! ckpt (student_model cfg) with
                     | Some _ => [EvLoadCkpt (ckpt (student_model cfg)) None true]
                     | None => []
                     end) with (@nil event)
        by (by destruct (files w !! ckpt (student_model cfg))).
      apply saves_loop_steps.
    + destruct Hspec as (_ & -> & _). constructor.
  - destruct r0 as [[]|e]; [by destruct Hspec as [? _]|].
    destruct Hspec as (_ & _ & ->). by left.
  - intros o ps v Hnet. by apply state_dict_of_net.
Qed.

(** The leader of a distributed run, its student wrapped: the writes are
    given the wrapped module, and the file holds the module's own entry and
    not the wrapper's [module.]-prefixed one. *)
Lemma checkpoints_hold_unwrapped_student_witness :
  Forall (fun ev => exists v, ev = EvSaveCkpt 1%nat v "student.pt")
    (saves (distill (box := Scripted.five) Scripted.leader 0%nat 2%nat Scripted.cuda
              [0] true 0 Scripted.cfg Scripted.run_args Scripted.wrapped).2)
  /\ ck_model <$> (files (distill (box := Scripted.five) Scripted.leader 0%nat 2%nat
                            Scripted.cuda [0] true 0 Scripted.cfg Scripted.run_args
                            Scripted.wrapped).1.2 !! "student.pt"%string)
     = Some [("fc.weight"%string, 0)]
  /\ Heap.state_dict_of (modules (objs Scripted.wrapped)) 2%nat
     = [("module.fc.weight"%string, 0)].
Proof.
  split; [|by vm_compute].
  eapply (checkpoints_hold_unwrapped_student (box := Scripted.five) Scripted.leader
            0%nat 2%nat Scripted.cuda [0] true 0 Scripted.cfg Scripted.run_args
            Scripted.wrapped _ (Ok tt) _ (Ok tt) (objs Scripted.wrapped)).
  - reflexivity.
  - vm_compute. reflexivity.
Defined.

(** ** The final reload *)

Section ReloadFacts.

Context {H : Type} {box : Collaborators H}.

Lemma reload_student_run student cfg (w : world H) :
  let path := ckpt (student_model cfg) in
  let without_ddp := underlying (modules (objs w)) student in
  reload_student student cfg w
  = match files w !! path with
    | None => (Raise NotFoundError, w, [EvLoadCkpt path (Some without_ddp) true])
    | Some ck =>
        match Heap.load_state_dict true (ck_model ck) without_ddp (modules (objs w)) with
        | None => (Raise RuntimeError, w, [EvLoadCkpt path (Some without_ddp) true])
        | Some h =>
            (Ok tt,
             {| objs := {| modules := h; optimizer := optimizer (objs w);
                           lr_scheduler := lr_scheduler (objs w);
                           hidden := hidden (objs w) |};
                num_threads := num_threads w; files := files w |},
             [EvLoadCkpt path (Some without_ddp) true])
        end
    end.
Proof.
  cbv zeta.
  destruct (files w !! ckpt (student_model cfg)) as [ck|] eqn:Eck;
    [destruct (Heap.load_state_dict _ _ _ _) as [h|] eqn:Eload|].
  all: apply wp_equation; unfold reload_student, load_ckpt.
  all: wp_steps; apply wp_without_ddp; wp_steps; rewrite Eck; wp_steps.
  all: try (rewrite Eload; wp_steps).
  all: done.
Qed.

End ReloadFacts.

(** C9.  Unless [-test_only] is given, [main] runs [distill] and, when it
    has returned, loads the checkpoint at the student's path back into the
    student without its wrapper, strictly.  If no file is at that path the
    load raises [NotFoundError] and so does the branch: nothing after it
    runs.  If a file is there, the branch returns once the strict load has
    accepted the stored keys, and raises [RuntimeError] if it has not. *)
Theorem final_reload_is_strict_and_loud {H : Type} {box : Collaborators H}
    ctx teacher student dev ids distributed cfg a (w w1 : world H) t1 :
  distill ctx teacher student dev ids distributed (start_epoch a) cfg a w
  = (Ok tt, w1, t1) ->
  let path := ckpt (student_model cfg) in
  let without_ddp := underlying (modules (objs w1)) student in
  exists r w2,
    train_and_reload ctx teacher student dev ids distributed cfg a w
    = (r, w2, t1 ++ [EvLoadCkpt path (Some without_ddp) true])
    /\ match files w1 !! path with
       | None => r = Raise NotFoundError /\ w2 = w1
       | Some ck =>
           match Heap.load_state_dict true (ck_model ck) without_ddp
                   (modules (objs w1)) with
           | None => r = Raise RuntimeError /\ w2 = w1
           | Some h => r = Ok tt /\ modules (objs w2) = h /\ files w2 = files w1
           end
       end.
Proof.
  intros Hrun. cbv zeta. unfold train_and_reload, bind. rewrite Hrun.
  pose proof (reload_student_run student cfg w1) as Hreload. cbv zeta in Hreload.
  rewrite Hreload.
  destruct (files w1 !! ckpt (student_model cfg)) as [ck|];
    [destruct (Heap.load_state_dict _ _ _ _) as [h|]|]; eauto 10.
Qed.

(** A run whose validation never improves on 0.0 writes no checkpoint; with
    none on disk before, the reload raises. *)
Lemma final_reload_is_strict_and_loud_witness :
  exists w2,
    train_and_reload (box := Scripted.flat) Scripted.single 0%nat 1%nat Scripted.cpu []
      false Scripted.cfg Scripted.run_args Scripted.fresh
    = (Raise NotFoundError, w2,
       (distill (box := Scripted.flat) Scripted.single 0%nat 1%nat Scripted.cpu []
          false 0 Scripted.cfg Scripted.run_args Scripted.fresh).2
       ++ [EvLoadCkpt "student.pt" (Some 1%nat) true]).
Proof.
  assert (distill (box := Scripted.flat) Scripted.single 0%nat 1%nat Scripted.cpu []
            false (start_epoch Scripted.run_args) Scripted.cfg Scripted.run_args
            Scripted.fresh
          = (Ok tt,
             (distill (box := Scripted.flat) Scripted.single 0%nat 1%nat Scripted.cpu []
                false 0 Scripted.cfg Scripted.run_args Scripted.fresh).1.2,
             (distill (box := Scripted.flat) Scripted.single 0%nat 1%nat Scripted.cpu []
                false 0 Scripted.cfg Scripted.run_args Scripted.fresh).2)) as Hrun.
  { vm_compute. reflexivity. }
  destruct (final_reload_is_strict_and_loud _ _ _ _ _ _ _ _ _ _ _ Hrun)
    as (r & w2 & Heq & Hcase).
  exists w2. vm_compute in Hcase. destruct Hcase as [-> _]. exact Heq.
Defined.

(** The whole of [main] with the teacher's and the student's checkpoints
    on disk, as [get_model] needs them: both models are built and loaded,
    the student trains for one epoch, the reload follows the clean-up hook,
    and the two test evaluations come last. *)
Example main_reloads_after_training :
  let w := {| objs := {| modules := []; optimizer := []; lr_scheduler := [];
                         hidden := 0 |};
              num_threads := 8;
              files := {[ "teacher.pt"%string := Scripted.earlier;
                          "student.pt"%string := Scripted.earlier ]} |} in
  let run := main (box := Scripted.flat) (launcher := Scripted.launch)
               Scripted.single Scripted.run_args w in
  run.1.1 = Ok tt
  /\ steps run.2
     = [EvLoadCkpt "teacher.pt" (Some 0%nat) true;
        EvLoadCkpt "student.pt" (Some 1%nat) true;
        EvGetDistillationBox 0%nat 1%nat;
        EvLoadCkpt "student.pt" None true;
        EvPreProcess 0; EvDistillOneEpoch 0; EvEvaluate 1%nat "Validation:";
        EvAccuracy 0%float 1%float; EvPostProcess;
        EvCleanModules;
        EvLoadCkpt "student.pt" (Some 1%nat) true;
        EvEvaluate 0%nat "Test:"; EvAccuracy 0%float 1%float;
        EvEvaluate 1%nat "Test:"; EvAccuracy 0%float 1%float].
Proof. by vm_compute. Qed.

(** ** The worked examples of the specification *)

(** One process, three epochs scoring 0.40, 0.55 and 0.50: two writes, none
    at the third epoch, and the stored best score is 0.55. *)
Example three_epochs :
  let run := distill (box := Scripted.box [0.40; 0.55; 0.50]%float 3) Scripted.single
               0%nat 1%nat Scripted.cpu [] false 0 Scripted.cfg Scripted.run_args
               Scripted.fresh in
  run.1.1 = Ok tt
  /\ saves run.2 = [EvSaveCkpt 1%nat 0.40%float "student.pt";
                    EvSaveCkpt 1%nat 0.55%float "student.pt"]
  /\ ck_best_value <$> (files run.1.2 !! "student.pt"%string) = Some 0.55%float.
Proof. by vm_compute. Qed.

(** A run resumed at epoch 2 from a checkpoint whose best score is 0.60,
    the one epoch left scoring 0.58: no write, and the file is as it was. *)
Example resumed_below_best :
  let run := distill (box := Scripted.box [0; 0; 0.58]%float 3) Scripted.single
               0%nat 1%nat Scripted.cpu [] false 2 Scripted.cfg Scripted.run_args
               Scripted.resumed in
  run.1.1 = Ok tt
  /\ (reports run.2).*1 = [0.58%float]
  /\ saves run.2 = []
  /\ files run.1.2 = files Scripted.resumed.
Proof. by vm_compute. Qed.

(** * Further properties *)

(** ** What a computation calls and what it leaves alone *)

Section Frames.

Context {H : Type}.

Lemma emits_bind {A B} P (m : M H A) (f : A -> M H B) :
  emits_only P m -> (forall a, emits_only P (f a)) -> emits_only P (bind m f).
Proof.
  intros Hm Hf w. unfold bind. specialize (Hm w).
  destruct (m w) as [[[a|e] w1] t1]; simpl in *; [|done].
  specialize (Hf a w1). destruct (f a w1) as [[r2 w2] t2]. simpl in *.
  by apply Forall_app.
Qed.

Lemma emits_silent {A} P (m : M H A) : (forall w, (m w).2 = []) -> emits_only P m.
Proof. intros Hm w. rewrite Hm. constructor. Qed.

Lemma emits_emit P e : P e -> emits_only (H := H) P (emit e).
Proof. intros He w. simpl. by repeat constructor. Qed.

Lemma emits_call {A} P (f : objects H -> result A * objects H) : emits_only P (call f).
Proof. apply emits_silent. intros w. unfold call. by destruct (f (objs w)). Qed.

Lemma emits_for_each {X S} P (xs : list X) (body : X -> S -> M H S) :
  (forall x s, emits_only P (body x s)) -> forall s, emits_only P (for_each xs s body).
Proof.
  intros Hb. induction xs as [|x xs IH]; intros s; simpl.
  - by apply emits_silent.
  - apply emits_bind; [apply Hb|apply IH].
Qed.

End Frames.

(** One step of a proof that a computation emits only what it may: through
    the binds, the loops and the branches, down to the primitives. *)
Ltac frame_step :=
  lazymatch goal with
  | |- emits_only _ (bind _ _) => apply emits_bind; [|intros ?]
  | |- emits_only _ (for_each _ _ _) => apply emits_for_each; intros ? ?
  | |- emits_only _ (emit _) => apply emits_emit; try done
  | |- emits_only _ (call _) => apply emits_call
  | |- emits_only _ (if ?b then _ else _) => destruct b
  | |- emits_only _ (match ?x with _ => _ end) => destruct x
  | |- emits_only _ _ => apply emits_silent; intros ?; reflexivity
  end.

Ltac frame := repeat frame_step.

Section MainFacts.

Context {H : Type} {box : Collaborators H}.
Variable ctx : DistributedContext.

Lemma evaluate_trains_nothing model dl dev ids distributed header :
  emits_only (fun e => is_training e = false)
    (evaluate ctx model dl dev ids distributed header).
Proof.
  unfold evaluate, wrap, synchronize_between_processes, global_avg_of. frame.
Qed.

Lemma get_model_trains_nothing mc dev distributed sync_bn :
  emits_only (fun e => is_training e = false) (get_model mc dev distributed sync_bn).
Proof. unfold get_model, load_ckpt. frame. Qed.

Lemma main_body_trains_nothing a cfg dev ids distributed :
  test_only a = true ->
  emits_only (H := H) (fun e => is_training e = false)
    (main_body ctx a cfg dev ids distributed).
Proof.
  intros Htest. unfold main_body. rewrite Htest. simpl negb. cbv iota. frame.
  all: first [apply get_model_trains_nothing | apply evaluate_trains_nothing].
Qed.

End MainFacts.

(** ** [main] *)

(** X1.  With [-test_only], [main] makes no call that belongs to training:
    no distillation box is built, no epoch hook is called, no batch is
    forwarded and no parameter updated, no checkpoint is written, and
    neither the barrier nor the clean-up hook is reached.  This holds whether
    [main] returns or raises, and with a log file or without. *)
Theorem main_test_only_never_trains {H : Type} {box : Collaborators H}
    {launcher : Launcher H} ctx a (w w' : world H) r t :
  test_only a = true ->
  main ctx a w = (r, w', t) ->
  Forall (fun e => is_training e = false) t.
Proof.
  intros Htest Hrun.
  assert (emits_only (fun e => is_training e = false) (main ctx a)) as Hemits.
  { unfold main. frame. by apply main_body_trains_nothing. }
  specialize (Hemits w). by rewrite Hrun in Hemits.
Qed.

Lemma main_test_only_never_trains_witness :
  Forall (fun e => is_training e = false)
    (main (box := Scripted.five) (launcher := Scripted.launch) Scripted.single
       Scenes.test_args Scenes.stocked).2.
Proof.
  eapply (main_test_only_never_trains (box := Scripted.five)
            (launcher := Scripted.launch) Scripted.single Scenes.test_args
            Scenes.stocked _ (Ok tt)).
  - reflexivity.
  - vm_compute. reflexivity.
Defined.

(** ** [get_model] *)

Section GetModelFacts.

Context {H : Type} {box : Collaborators H}.

(** [get_model], whatever its outcome: the construction, then the strict
    load of the configured checkpoint into the new model, then the
    placement. *)
Lemma get_model_spec mc dev distributed sync_bn (w : world H) :
  wp (get_model mc dev distributed sync_bn)
    (fun r w' t =>
       match construct_model mc distributed sync_bn (objs w) with
       | (Raise e, o1) =>
           r = Raise e /\ t = []
           /\ w' = {| objs := o1; num_threads := num_threads w; files := files w |}
       | (Ok model, o1) =>
           t = [EvLoadCkpt (ckpt mc) (Some model) true]
           /\ match files w !! ckpt mc with
              | None =>
                  r = Raise NotFoundError
                  /\ w' = {| objs := o1; num_threads := num_threads w;
                             files := files w |}
              | Some ck =>
                  match Heap.load_state_dict true (ck_model ck) model (modules o1) with
                  | None =>
                      r = Raise RuntimeError
                      /\ w' = {| objs := o1; num_threads := num_threads w;
                                 files := files w |}
                  | Some h =>
                      r = Ok model
                      /\ w' = {| objs := {| modules := Heap.to dev model h;
                                            optimizer := optimizer o1;
                                            lr_scheduler := lr_scheduler o1;
                                            hidden := hidden o1 |};
                                 num_threads := num_threads w; files := files w |}
                  end
              end
       end) w.
Proof.
  unfold get_model, load_ckpt. wp_steps.
  destruct (construct_model mc distributed sync_bn (objs w)) as [[model|e] o1] eqn:E;
    (eapply wp_call_eq; [exact E|]); cbv beta iota; [|done].
  wp_steps. destruct (files w !! ckpt mc) as [ck|]; wp_steps; [|done].
  destruct (Heap.load_state_dict true (ck_model ck) model (modules o1)) as [h|];
    wp_steps; done.
Qed.

End GetModelFacts.

Lemma alter_all_placement d rs (h : heap) r :
  r ∈ rs -> (r < length h)%nat ->
  placement <$> (Heap.alter_all (Heap.set_placement d) rs h !! r) = Some (Some d).
Proof.
  intros Hin Hlt. induction rs as [|r' rs IH]; [by apply elem_of_nil in Hin|].
  rewrite HeapFacts.alter_all_cons. destruct (decide (r = r')) as [->|Hne].
  - rewrite list_lookup_alter_eq.
    destruct (lookup_lt_is_Some_2 (Heap.alter_all (Heap.set_placement d) rs h) r')
      as [o Ho].
    { by rewrite HeapFacts.alter_all_length. }
    by rewrite Ho.
  - rewrite list_lookup_alter_ne by done.
    apply IH. apply elem_of_cons in Hin as [?|?]; [done|done].
Qed.

Lemma model_dict_lookup {H : Type} (A S CC CF : gmap string (model_builder H)) k :
  MODEL_DICT A S CC CF !! k
  = match CF !! k with
    | Some c => Some c
    | None =>
        match CC !! k with
        | Some c => Some c
        | None =>
            match S !! k with
            | Some c => Some c
            | None => A !! k
            end
        end
    end.
Proof.
  unfold MODEL_DICT, dict_update. rewrite !lookup_union, lookup_empty.
  destruct (CF !! k), (CC !! k), (S !! k), (A !! k); done.
Qed.

(** X3.  When no official model is found, the model [get_model] builds is
    the one registered under the configured name by the registry updated
    last: the custom functions before the custom classes, these before the
    special classes, these before the adaptation classes.  A name in none of
    them is a [KeyError]. *)
Theorem construct_prefers_later_registries {H : Type}
    (official : model_config -> bool -> bool -> objects H
                -> result (option nat) * objects H)
    (A S CC CF : gmap string (model_builder H)) mc distributed sync_bn o o1 :
  official mc distributed sync_bn o = (Ok None, o1) ->
  construct official (MODEL_DICT A S CC CF) mc distributed sync_bn o
  = match CF !! name mc with
    | Some c => c mc o1
    | None =>
        match CC !! name mc with
        | Some c => c mc o1
        | None =>
            match S !! name mc with
            | Some c => c mc o1
            | None =>
                match A !! name mc with
                | Some c => c mc o1
                | None => (Raise KeyError, o1)
                end
            end
        end
    end.
Proof.
  intros Hoff. unfold construct. rewrite Hoff, model_dict_lookup.
  destruct (CF !! name mc), (CC !! name mc), (S !! name mc), (A !! name mc); done.
Qed.

(** The adaptation class registered as [resnet18] fails to build; the custom
    function of the same name is the one that is called. *)
Lemma construct_prefers_later_registries_witness :
  (construct Scenes.no_official
     (MODEL_DICT Scenes.adaptation_classes ∅ ∅ Scenes.custom_functions)
     (student_model Scripted.cfg) false false (objs Scenes.stocked)).1 = Ok 0%nat.
Proof.
  rewrite (construct_prefers_later_registries Scenes.no_official
             Scenes.adaptation_classes ∅ ∅ Scenes.custom_functions
             (student_model Scripted.cfg) false false (objs Scenes.stocked)
             (objs Scenes.stocked) eq_refl).
  vm_compute. reflexivity.
Defined.

(** X4.  If neither an official model nor a registered one goes by the
    configured name, [get_model] raises [KeyError] before it reads any
    checkpoint: it makes no call, and the files are as they were. *)
Theorem get_model_unregistered_name {H : Type} {box : Collaborators H}
    (official : model_config -> bool -> bool -> objects H
                -> result (option nat) * objects H)
    (A S CC CF : gmap string (model_builder H))
    mc dev distributed sync_bn (w : world H) o1 :
  (forall o, construct_model mc distributed sync_bn o
             = construct official (MODEL_DICT A S CC CF) mc distributed sync_bn o) ->
  official mc distributed sync_bn (objs w) = (Ok None, o1) ->
  A !! name mc = None -> S !! name mc = None ->
  CC !! name mc = None -> CF !! name mc = None ->
  get_model mc dev distributed sync_bn w
  = (Raise KeyError,
     {| objs := o1; num_threads := num_threads w; files := files w |}, []).
Proof.
  intros Hbuild Hoff HA HS HCC HCF.
  pose proof (get_model_spec mc dev distributed sync_bn w) as Hspec.
  rewrite Hbuild in Hspec. unfold construct in Hspec.
  rewrite Hoff, model_dict_lookup, HCF, HCC, HS, HA in Hspec.
  apply wp_equation. eapply wp_conseq; [exact Hspec|]. by intros r w' t (-> & -> & ->).
Qed.

Lemma get_model_unregistered_name_witness :
  get_model (box := Scenes.registered) Scenes.unknown Scripted.cpu false false
    Scenes.stocked
  = (Raise KeyError, Scenes.stocked, []).
Proof.
  rewrite (get_model_unregistered_name (box := Scenes.registered) Scenes.no_official
             Scenes.adaptation_classes ∅ ∅ Scenes.custom_functions
             Scenes.unknown Scripted.cpu false false Scenes.stocked
             (objs Scenes.stocked)); reflexivity.
Defined.

(** X5.  When [get_model] returns, the model it returns is the one that was
    constructed; the checkpoint at the configured path was there and has
    been loaded into that model, strictly, by the one call [get_model]
    makes; the model is placed on the device; and the files, the optimizer
    and the scheduler are as the construction left them. *)
Theorem get_model_returns_loaded_model_on_device {H : Type} {box : Collaborators H}
    mc dev distributed sync_bn (w w' : world H) model t :
  get_model mc dev distributed sync_bn w = (Ok model, w', t) ->
  exists o1 ck h,
    construct_model mc distributed sync_bn (objs w) = (Ok model, o1)
    /\ files w !! ckpt mc = Some ck
    /\ Heap.load_state_dict true (ck_model ck) model (modules o1) = Some h
    /\ modules (objs w') = Heap.to dev model h
    /\ (is_Some (modules (objs w') !! model) ->
        placement <$> (modules (objs w') !! model) = Some (Some dev))
    /\ t = [EvLoadCkpt (ckpt mc) (Some model) true]
    /\ files w' = files w
    /\ optimizer (objs w') = optimizer o1
    /\ lr_scheduler (objs w') = lr_scheduler o1.
Proof.
  intros Hrun.
  pose proof (wp_elim _ _ _ _ _ _ (get_model_spec mc dev distributed sync_bn w) Hrun)
    as Hspec.
  destruct (construct_model mc distributed sync_bn (objs w)) as [[m|e] o1];
    [|by destruct Hspec as ([=] & _)].
  destruct Hspec as (-> & Hspec).
  destruct (files w !! ckpt mc) as [ck|]; [|by destruct Hspec as ([=] & _)].
  destruct (Heap.load_state_dict true (ck_model ck) m (modules o1)) as [h|] eqn:Eload;
    [|by destruct Hspec as ([=] & _)].
  destruct Hspec as ([= <-] & ->). exists o1, ck, h. cbn.
  repeat split; try done.
  intros Hin. apply lookup_lt_is_Some in Hin. rewrite HeapFacts.to_length in Hin.
  unfold Heap.to. apply alter_all_placement; [|done].
  by apply HeapFacts.modules_of_self.
Qed.

Lemma get_model_returns_loaded_model_on_device_witness :
  exists w' t,
    get_model (box := Scripted.five) (student_model Scripted.cfg) Scripted.cuda
      false false Scenes.stocked = (Ok 0%nat, w', t)
    /\ placement <$> (modules (objs w') !! 0%nat) = Some (Some Scripted.cuda).
Proof.
  assert (get_model (box := Scripted.five) (student_model Scripted.cfg) Scripted.cuda
            false false Scenes.stocked
          = (Ok 0%nat,
             (get_model (box := Scripted.five) (student_model Scripted.cfg)
                Scripted.cuda false false Scenes.stocked).1.2,
             (get_model (box := Scripted.five) (student_model Scripted.cfg)
                Scripted.cuda false false Scenes.stocked).2)) as Hrun.
  { vm_compute. reflexivity. }
  destruct (get_model_returns_loaded_model_on_device _ _ _ _ _ _ _ _ Hrun)
    as (o1 & ck & h & _ & _ & _ & _ & Hplaced & _).
  eexists _, _. split; [exact Hrun|]. apply Hplaced. vm_compute. eauto.
Defined.

Section TestModeFacts.

Context {H : Type} {box : Collaborators H} {launcher : Launcher H}.
Variable ctx : DistributedContext.





End TestModeFacts.



(** ** [distill_one_epoch] *)

Section PassFacts.

Context {H : Type} {box : Collaborators H}.




End PassFacts.



(** ** The score of an evaluation *)

Section ScoreFacts.

Context {H : Type} {box : Collaborators H}.
Variable ctx : DistributedContext.

Lemma accumulate_outcome model dl : forall l (w : world H),
  wp (for_each dl l (fun b l =>
        bind (ask (accuracy model b)) (fun acc =>
          ret (MetricLogger.update_meter "acc5" acc.2 (batch_size b)
                 (MetricLogger.update_meter "acc1" acc.1 (batch_size b) l)))))
    (fun r w' t =>
       w' = w /\ t = []
       /\ match r with
          | Ok l' =>
              exists accs,
                Forall2 (fun b acc => accuracy model b (objs w) = Ok acc) dl accs
                /\ l' = fold_left tally (zip dl accs) l
          | Raise _ => True
          end) w.
Proof.
  induction dl as [|b dl IH]; intros l w; cbn [for_each].
  - apply wp_ret. repeat split. exists []. split; [constructor|done].
  - wp_steps. destruct (accuracy model b (objs w)) as [acc|e] eqn:E; [|done].
    wp_steps. eapply wp_conseq; [apply IH|].
    intros r w' t (-> & -> & Hr). split; [done|]. split; [done|].
    destruct r as [l'|]; [|done]. destruct Hr as (accs & Hall & ->).
    exists (acc :: accs). split; [by constructor|done].
Qed.

Lemma acc1_tally pairs : forall l,
  MetricLogger.meters (fold_left tally pairs l) !! "acc1"%string
  = match pairs with
    | [] => MetricLogger.meters l !! "acc1"%string
    | _ => Some (SmoothedValue.updates
                   ((fun bc : batch * (float * float) => (bc.2.1, batch_size bc.1))
                      <$> pairs)
                   (default SmoothedValue.default
                      (MetricLogger.meters l !! "acc1"%string)))
    end.
Proof.
  induction pairs as [|bc pairs IH]; intros l; [done|].
  cbn [fold_left]. rewrite IH.
  assert (MetricLogger.meters (tally l bc) !! "acc1"%string
          = Some (SmoothedValue.update bc.2.1 (batch_size bc.1)
                    (default SmoothedValue.default
                       (MetricLogger.meters l !! "acc1"%string)))) as ->.
  { unfold tally, MetricLogger.update_meter. cbn [MetricLogger.meters].
    rewrite lookup_insert_ne by done. by rewrite lookup_insert_eq. }
  by destruct pairs.
Qed.

Lemma top1_calls_zip (dl : list batch) (accs : list (float * float)) :
  length dl = length accs ->
  (fun bc : batch * (float * float) => (bc.2.1, batch_size bc.1)) <$> zip dl accs
  = weighted (accs.*1) dl.
Proof.
  revert accs. induction dl as [|b dl IH]; intros [|acc accs] Hlen; try done.
  unfold weighted in *. simpl. f_equal. apply IH. by injection Hlen.
Qed.

Lemma count_updates_default calls :
  SmoothedValue.count (SmoothedValue.updates calls SmoothedValue.default)
  = SmoothedValue.weight_sum calls.
Proof. by rewrite SmoothedValueFacts.count_updates. Qed.

Lemma total_updates_default calls :
  SmoothedValue.total (SmoothedValue.updates calls SmoothedValue.default)
  = SmoothedValue.weighted_sum calls.
Proof. by rewrite SmoothedValueFacts.total_updates. Qed.

Lemma acc1_filled (dl : list batch) (accs : list (float * float)) :
  length dl = length accs ->
  MetricLogger.meters (fold_left tally (zip dl accs) MetricLogger.new) !! "acc1"%string
  = match dl with
    | [] => None
    | _ => Some (SmoothedValue.updates (weighted (accs.*1) dl) SmoothedValue.default)
    end.
Proof.
  intros Hlen. rewrite acc1_tally, <- (top1_calls_zip dl accs Hlen).
  by destruct dl as [|b dl], accs as [|acc accs].
Qed.

(** The top-1 average of the logger an evaluation has filled and
    synchronised. *)
Lemma global_avg_acc1 (o : objects H) dl accs :
  length dl = length accs ->
  global_avg_at "acc1"
    (if is_distributed ctx
     then MetricLogger.synchronize (all_reduce o)
            (fold_left tally (zip dl accs) MetricLogger.new)
     else fold_left tally (zip dl accs) MetricLogger.new)
  = match dl with
    | [] => Raise AttributeError
    | _ => synchronized_mean
             (if is_distributed ctx then Some (all_reduce o "acc1") else None)
             (weighted (accs.*1) dl)
    end.
Proof.
  intros Hlen. unfold global_avg_at, MetricLogger.getattr, synchronized_mean.
  pose proof (count_updates_default (weighted (accs.*1) dl)) as Hc.
  pose proof (total_updates_default (weighted (accs.*1) dl)) as Ht.
  revert Hc Ht.
  generalize (SmoothedValue.weight_sum (weighted (accs.*1) dl)).
  generalize (SmoothedValue.weighted_sum (weighted (accs.*1) dl)).
  intros s c Hc Ht.
  destruct (is_distributed ctx).
  - unfold MetricLogger.synchronize. cbn [MetricLogger.meters].
    rewrite map_lookup_imap, (acc1_filled dl accs Hlen).
    destruct dl as [|b dl]; [done|].
    revert Hc Ht.
    generalize (SmoothedValue.updates (weighted (accs.*1) (b :: dl))
                  SmoothedValue.default).
    intros m <- <-. reflexivity.
  - rewrite (acc1_filled dl accs Hlen).
    destruct dl as [|b dl]; [done|].
    revert Hc Ht.
    generalize (SmoothedValue.updates (weighted (accs.*1) (b :: dl))
                  SmoothedValue.default).
    intros m <- <-. reflexivity.
Qed.

End ScoreFacts.

Section ScoreSpec.

Context {H : Type} {box : Collaborators H}.
Variable ctx : DistributedContext.

Lemma evaluate_score_spec model dl dev ids distributed header (w : world H) :
  wp (evaluate ctx model dl dev ids distributed header)
    (fun r w' t =>
       match r with
       | Ok v =>
           exists accs,
             Forall2 (fun b acc =>
                        accuracy (evaluated_model (eval_wrapper distributed dev) model
                                    (modules (objs w))) b (objs w') = Ok acc) dl accs
             /\ dl <> []
             /\ synchronized_mean
                  (if is_distributed ctx then Some (all_reduce (objs w') "acc1")
                   else None)
                  (weighted (accs.*1) dl) = Ok v
       | Raise _ => True
       end) w.
Proof.
  unfold evaluate, eval_wrapper, evaluated_model, synchronize_between_processes.
  wp_steps.
  destruct distributed; [|destruct (String.prefix "cuda" (type dev))];
    unfold wrap; wp_steps.
  all: eapply wp_conseq; [apply accumulate_outcome|].
  all: intros r w1 t1 (-> & -> & Hr); destruct r as [l|]; [|done].
  all: destruct Hr as (accs & Hall & ->).
  all: pose proof (Forall2_length _ _ _ Hall) as Hlen.
  all: wp_steps; apply wp_global_avg_of; rewrite (global_avg_acc1 ctx _ dl accs Hlen).
  all: destruct dl as [|b dl]; [done|].
  all: match goal with
       | |- context [synchronized_mean ?f ?c] =>
           destruct (synchronized_mean f c) as [top1|e] eqn:E1; [|done]
       end.
  all: cbv beta iota; wp_steps; apply wp_global_avg_of.
  all: match goal with
       | |- context [global_avg_at "acc5" ?l] =>
           destruct (global_avg_at "acc5" l) as [top5|e]; [|done]
       end.
  all: cbv beta iota; wp_steps; apply wp_global_avg_of.
  all: rewrite (global_avg_acc1 ctx _ (b :: dl) accs Hlen), E1.
  all: exists accs; split; [|split; [done|exact E1]].
  all: try rewrite <- (HeapFacts.to_length dev model (modules (objs w))).
  all: exact Hall.
Qed.

End ScoreSpec.

(** X11.  The score [evaluate] returns is the average of the top-1
    accuracies of the batches, each weighted by the size of its batch: the
    sum of accuracy times size over the sum of the sizes, both accumulated
    in loader order.  In a distributed process the two sums first go
    through the collective.  The accuracies are those of the model as the
    evaluation has set it up, wrapped or not, in inference mode. *)
Theorem evaluate_returns_weighted_mean {H : Type} {box : Collaborators H}
    ctx model dl dev ids distributed header (w w' : world H) v t :
  evaluate ctx model dl dev ids distributed header w = (Ok v, w', t) ->
  exists accs,
    Forall2 (fun b acc =>
               accuracy (evaluated_model (eval_wrapper distributed dev) model
                           (modules (objs w))) b (objs w') = Ok acc) dl accs
    /\ dl <> []
    /\ (if is_distributed ctx
        then synchronized_mean (Some (all_reduce (objs w') "acc1"))
               (weighted (accs.*1) dl)
        else SmoothedValue.weighted_mean (weighted (accs.*1) dl)) = Ok v.
Proof.
  intros Hrun.
  pose proof (wp_elim _ _ _ _ _ _
                (evaluate_score_spec ctx model dl dev ids distributed header w) Hrun)
    as (accs & Hall & Hdl & Hv).
  exists accs. split; [done|]. split; [done|].
  by destruct (is_distributed ctx).
Qed.

(** One sample classified right and three of which half are: five eighths. *)
Lemma evaluate_returns_weighted_mean_witness :
  exists accs : list (float * float),
    accs.*1 = [1%float; 0.5%float]
    /\ SmoothedValue.weighted_mean (weighted (accs.*1) Scenes.uneven) = Ok 0.625%float.
Proof.
  assert (evaluate (box := Scenes.graded) Scripted.single 1%nat Scenes.uneven
            Scripted.cpu [] false "Test:" Scripted.fresh
          = (Ok 0.625%float,
             (evaluate (box := Scenes.graded) Scripted.single 1%nat Scenes.uneven
                Scripted.cpu [] false "Test:" Scripted.fresh).1.2,
             (evaluate (box := Scenes.graded) Scripted.single 1%nat Scenes.uneven
                Scripted.cpu [] false "Test:" Scripted.fresh).2)) as Hrun.
  { vm_compute. reflexivity. }
  destruct (evaluate_returns_weighted_mean _ _ _ _ _ _ _ _ _ _ _ Hrun)
    as (accs & Hall & _ & Hv).
  exists accs. split; [|exact Hv].
  inversion Hall as [|b1 a1 dl1 accs1 H1 Hall1]; subst.
  inversion Hall1 as [|b2 a2 dl2 accs2 H2 Hall2]; subst.
  inversion Hall2; subst.
  vm_compute in H1, H2. injection H1 as <-. injection H2 as <-. reflexivity.
Defined.

(** ** More on [distill] *)

Lemma saved_values_app t1 t2 :
  saved_values (t1 ++ t2) = saved_values t1 ++ saved_values t2.
Proof. induction t1 as [|e t1 IH]; [done|]. destruct e; simpl; by rewrite ?IH. Qed.

Lemma saved_values_saves t : saved_values (saves t) = saved_values t.
Proof.
  induction t as [|e t IH]; [done|].
  unfold saves in *. destruct e; simpl; by rewrite ?IH.
Qed.

Lemma saved_values_steps t : saved_values (steps t) = saved_values t.
Proof. by rewrite <- saved_values_saves, saves_steps, saved_values_saves. Qed.

Lemma saved_values_epoch_steps student swd path main epoch best v t5 :
  saved_values (epoch_steps student swd path main epoch best v t5)
  = if improves main best v then [v] else [].
Proof. unfold epoch_steps. by destruct (improves main best v). Qed.

(** The scores the loop stores go up: each is strictly above the best score
    at the time, which is the score stored before it. *)
Lemma increasing_loop_steps student swd path main epochs : forall best scores,
  increasing best (saved_values (loop_steps student swd path main epochs best scores)).
Proof.
  induction epochs as [|e es IH]; intros best [|[v t5] ss]; try done.
  rewrite loop_steps_cons, saved_values_app, saved_values_epoch_steps.
  unfold next_best. destruct (improves main best v) eqn:Himp; [|apply IH].
  simpl. split; [|apply IH].
  unfold improves in Himp. by apply andb_true_iff in Himp as [? _].
Qed.

Lemma setup_steps_no_save teacher student path (ck : option checkpoint) tl :
  saved_values (EvGetDistillationBox teacher student
                :: match ck with
                   | Some _ => [EvLoadCkpt path None true]
                   | None => []
                   end ++ tl)
  = saved_values tl.
Proof. by destruct ck. Qed.

(** The scores a run of [distill] writes are those its loop writes. *)
Lemma distill_saved_values {H : Type} {box : Collaborators H}
    ctx teacher student dev ids distributed start cfg a (w w' : world H) r t :
  distill ctx teacher student dev ids distributed start cfg a w = (r, w', t) ->
  exists swd epochs scores,
    saved_values t
    = saved_values
        (loop_steps student swd (ckpt (student_model cfg)) (is_main_process ctx)
           epochs (initial_best (files w !! ckpt (student_model cfg))) scores).
Proof.
  intros Hrun.
  pose proof (wp_elim _ _ _ _ _ _
    (distill_spec ctx teacher student dev ids distributed start cfg a w) Hrun) as Hspec.
  cbv zeta in Hspec.
  destruct (get_distillation_box teacher student distributed (objs w)) as [[[]|e] o1].
  - destruct Hspec as (_ & scores & tail & Hs & Hsv & _).
    eexists _, _, scores.
    rewrite <- saved_values_steps, Hs, setup_steps_no_save, saved_values_app.
    by rewrite <- (saved_values_saves tail), Hsv, app_nil_r.
  - destruct Hspec as (_ & -> & _). by exists student, [], [].
Qed.

(** X12.  Over any run of [distill] the scores written to the checkpoint go
    strictly up: the first one written is strictly above the best score the
    run started from (0.0, or the best value of the checkpoint it resumed
    from), and each later one strictly above the one written before it. *)
Theorem distill_writes_increasing_scores {H : Type} {box : Collaborators H}
    ctx teacher student dev ids distributed start cfg a (w w' : world H) r t :
  distill ctx teacher student dev ids distributed start cfg a w = (r, w', t) ->
  increasing (initial_best (files w !! ckpt (student_model cfg))) (saved_values t).
Proof.
  intros Hrun.
  destruct (distill_saved_values _ _ _ _ _ _ _ _ _ _ _ _ _ Hrun)
    as (swd & epochs & scores & ->).
  apply increasing_loop_steps.
Qed.

Lemma distill_writes_increasing_scores_witness :
  increasing 0.6%float
    (saved_values
       (distill (box := Scripted.five) Scripted.single 0%nat 1%nat Scripted.cpu []
          false 0 Scripted.cfg Scripted.run_args Scripted.resumed).2).
Proof.
  eapply (distill_writes_increasing_scores (box := Scripted.five) Scripted.single
            0%nat 1%nat Scripted.cpu [] false 0 Scripted.cfg Scripted.run_args
            Scripted.resumed _ (Ok tt) _).
  vm_compute. reflexivity.
Defined.

(** Resumed from a best score of 0.6, the scripted run writes once, at 0.7. *)
Example resumed_run_writes_once :
  saved_values
    (distill (box := Scripted.five) Scripted.single 0%nat 1%nat Scripted.cpu []
       false 0 Scripted.cfg Scripted.run_args Scripted.resumed).2
  = [0.7%float].
Proof. by vm_compute. Qed.

Section LastWrite.

Context {H : Type} {box : Collaborators H}.
Variable ctx : DistributedContext.

Lemma last_write_app path cfg a (w w1 w2 : world H) t1 t2 :
  last_write path cfg a w w1 t1 -> last_write path cfg a w1 w2 t2 ->
  last_write path cfg a w w2 (t1 ++ t2).
Proof.
  unfold last_write. rewrite saved_values_app, last_app. intros H1 H2.
  destruct (last (saved_values t2)) as [v2|].
  - destruct H2 as (o2 & m2 & ->). exists o2, m2.
    destruct (last (saved_values t1)); [|by rewrite H1].
    destruct H1 as (o1 & m1 & ->). by rewrite insert_insert_eq.
  - rewrite H2. exact H1.
Qed.

Lemma last_write_quiet path cfg a (w w' : world H) t :
  saved_values t = [] -> files w' = files w -> last_write path cfg a w w' t.
Proof. unfold last_write. by intros ->. Qed.

Lemma distill_epoch_last_write student swd dev ids distributed cfg a path epoch best
    (w : world H) :
  wp (distill_epoch ctx student swd dev ids distributed cfg a path epoch best)
    (fun _ w' t => last_write path cfg a w w' t) w.
Proof.
  eapply wp_conseq; [apply distill_epoch_spec|].
  intros r w' t [(_ & Hf & Hs)|(v & t5 & Hs & _ & Hfiles)].
  - apply last_write_quiet; [|done]. rewrite <- saved_values_steps.
    by destruct Hs as [->|[->| ->]].
  - unfold last_write. rewrite <- saved_values_steps, Hs, saved_values_epoch_steps.
    destruct (improves (is_main_process ctx) best v); [|done].
    destruct Hfiles as [o Ho]. simpl. eauto.
Qed.

Lemma loop_last_write student swd dev ids distributed cfg a path epochs :
  forall best (w : world H),
  wp (for_each epochs best
        (distill_epoch ctx student swd dev ids distributed cfg a path))
    (fun _ w' t => last_write path cfg a w w' t) w.
Proof.
  induction epochs as [|e es IH]; intros best w; cbn [for_each].
  - apply wp_ret. by apply last_write_quiet.
  - apply wp_bind. eapply wp_conseq; [apply distill_epoch_last_write|].
    intros [b|e0] w1 t1 H1; [|done].
    eapply wp_conseq; [apply IH|]. intros r2 w2 t2 H2.
    by eapply last_write_app.
Qed.

Lemma distill_last_write teacher student dev ids distributed start cfg a (w : world H) :
  wp (distill ctx teacher student dev ids distributed start cfg a)
    (fun _ w' t => last_write (ckpt (student_model cfg)) cfg a w w' t) w.
Proof.
  unfold distill. apply wp_bind.
  eapply wp_conseq; [apply distill_setup_spec|]. intros r1 w1 t1. cbv zeta.
  destruct (get_distillation_box teacher student distributed (objs w))
    as [[[]|e] o1]; intros (-> & -> & ->); [|by apply last_write_quiet].
  wp_steps. eapply wp_conseq; [apply loop_last_write|].
  intros r2 w2 t2 H2. cbn [files] in H2.
  assert (forall w3 tl, saved_values tl = [] -> files w3 = files w2 ->
            last_write (ckpt (student_model cfg)) cfg a w w3
              ((EvGetDistillationBox teacher student
                :: match files w !! ckpt (student_model cfg) with
                   | Some _ => [EvLoadCkpt (ckpt (student_model cfg)) None true]
                   | None => []
                   end) ++ t2 ++ tl)) as Hend.
  { intros w3 tl Htl Hf3. eapply last_write_app with (w1 := w).
    - apply last_write_quiet; [|done]. by destruct (files w !! _).
    - eapply last_write_app; [exact H2|]. by apply last_write_quiet. }
  destruct r2 as [b|e].
  - destruct distributed; wp_steps; apply wp_call; intros r o.
    all: by apply Hend.
  - rewrite <- (app_nil_r t2). by apply Hend.
Qed.

End LastWrite.

(** X13.  After any run of [distill], returning or raising, the file at the
    student's checkpoint path is the bundle of the last write of the run: it
    records the last score written, with the configuration and the
    arguments of the run.  A run that wrote nothing leaves every file as it
    was. *)
Theorem distill_file_holds_last_write {H : Type} {box : Collaborators H}
    ctx teacher student dev ids distributed start cfg a (w w' : world H) r t :
  distill ctx teacher student dev ids distributed start cfg a w = (r, w', t) ->
  match last (saved_values t) with
  | Some v =>
      exists ck, files w' !! ckpt (student_model cfg) = Some ck
                 /\ ck_best_value ck = v /\ ck_config ck = cfg /\ ck_args ck = a
  | None => files w' = files w
  end.
Proof.
  intros Hrun.
  pose proof (wp_elim _ _ _ _ _ _
    (distill_last_write ctx teacher student dev ids distributed start cfg a w) Hrun)
    as Hlast.
  unfold last_write in Hlast. destruct (last (saved_values t)) as [v|]; [|done].
  destruct Hlast as (o & m & ->). rewrite lookup_insert_eq. eauto.
Qed.

(** The scripted run on 0.5, 0.4, 0.6, 0.6, 0.7 leaves 0.7 in the file. *)
Lemma distill_file_holds_last_write_witness :
  exists ck,
    files (distill (box := Scripted.five) Scripted.single 0%nat 1%nat Scripted.cpu []
             false 0 Scripted.cfg Scripted.run_args Scripted.fresh).1.2
      !! ckpt (student_model Scripted.cfg) = Some ck
    /\ ck_best_value ck = 0.7%float.
Proof.
  assert (distill (box := Scripted.five) Scripted.single 0%nat 1%nat Scripted.cpu []
            false 0 Scripted.cfg Scripted.run_args Scripted.fresh
          = (Ok tt,
             (distill (box := Scripted.five) Scripted.single 0%nat 1%nat Scripted.cpu
                [] false 0 Scripted.cfg Scripted.run_args Scripted.fresh).1.2,
             (distill (box := Scripted.five) Scripted.single 0%nat 1%nat Scripted.cpu
                [] false 0 Scripted.cfg Scripted.run_args Scripted.fresh).2)) as Hrun.
  { vm_compute. reflexivity. }
  pose proof (distill_file_holds_last_write _ _ _ _ _ _ _ _ _ _ _ _ _ Hrun) as Hlast.
  assert (last (saved_values
                  (distill (box := Scripted.five) Scripted.single 0%nat 1%nat
                     Scripted.cpu [] false 0 Scripted.cfg Scripted.run_args
                     Scripted.fresh).2) = Some 0.7%float) as Hv.
  { vm_compute. reflexivity. }
  rewrite Hv in Hlast. destruct Hlast as (ck & Hck & Hbest & _). eauto.
Defined.

(** ** An evaluation that fails on a batch *)

Section FailingBatch.

Context {H : Type} {box : Collaborators H}.
Variable ctx : DistributedContext.

(** The loop over the batches stops at the first batch whose scoring
    raises. *)
Lemma wp_accumulate_raises model pre b post e (w : world H)
    (Q : result MetricLogger.t -> world H -> list event -> Prop) :
  Forall (fun b' => exists acc, accuracy model b' (objs w) = Ok acc) pre ->
  accuracy model b (objs w) = Raise e ->
  Q (Raise e) w [] ->
  forall l,
  wp (for_each (pre ++ b :: post) l (fun b l =>
        bind (ask (accuracy model b)) (fun acc =>
          ret (MetricLogger.update_meter "acc5" acc.2 (batch_size b)
                 (MetricLogger.update_meter "acc1" acc.1 (batch_size b) l))))) Q w.
Proof.
  intros Hpre Hb HQ. induction Hpre as [|b' pre [acc Hacc] _ IH]; intros l.
  - cbn [app for_each]. wp_steps. by rewrite Hb.
  - cbn [app for_each]. wp_steps. rewrite Hacc. wp_steps. apply IH.
Qed.

Lemma evaluate_failing_batch_spec model pre b post dev ids distributed header e
    (w : world H) :
  let k := eval_wrapper distributed dev in
  let o' := evaluated_objects k dev model ids (objs w) in
  let model' := evaluated_model k model (modules (objs w)) in
  Forall (fun b' => exists acc, accuracy model' b' o' = Ok acc) pre ->
  accuracy model' b o' = Raise e ->
  wp (evaluate ctx model (pre ++ b :: post) dev ids distributed header)
    (fun r w' _ =>
       r = Raise e /\ w' = {| objs := o'; num_threads := 1; files := files w |}) w.
Proof.
  unfold evaluate, eval_wrapper, evaluated_model, evaluated_objects, evaluated_heap.
  destruct distributed; [|destruct (String.prefix "cuda" (type dev))];
    unfold wrap; cbv zeta; intros Hpre Hb; wp_steps.
  all: apply (wp_accumulate_raises _ _ _ _ e); try done; cbn [objs].
  all: assert (forall k, (Heap.wrap k model ids
                            (Heap.to dev model (modules (objs w)))).2
                         = length (modules (objs w))) as Hlen
         by (intros; apply HeapFacts.to_length).
  all: rewrite !Hlen; rewrite !Hlen in Hpre, Hb; done.
Qed.

End FailingBatch.

(** X15.  When the scoring of a batch raises, [evaluate] raises the same
    error at once, and nothing puts the thread count back: it stays at 1.
    The model stays as the evaluation has set it up, placed, wrapped if it
    had to be, and in inference mode; the files are untouched. *)
Theorem evaluate_failing_batch_keeps_one_thread {H : Type} {box : Collaborators H}
    ctx model pre b post dev ids distributed header e (w : world H) :
  let k := eval_wrapper distributed dev in
  let o' := evaluated_objects k dev model ids (objs w) in
  let model' := evaluated_model k model (modules (objs w)) in
  Forall (fun b' => exists acc, accuracy model' b' o' = Ok acc) pre ->
  accuracy model' b o' = Raise e ->
  exists t,
    evaluate ctx model (pre ++ b :: post) dev ids distributed header w
    = (Raise e, {| objs := o'; num_threads := 1; files := files w |}, t).
Proof.
  intros k o' model' Hpre Hb.
  pose proof (evaluate_failing_batch_spec ctx model pre b post dev ids distributed
                header e w Hpre Hb) as Hspec.
  unfold wp in Hspec.
  destruct (evaluate ctx model (pre ++ b :: post) dev ids distributed header w)
    as [[r w'] t].
  destruct Hspec as [-> ->]. by exists t.
Qed.

(** The first batch is scored, the second raises: the evaluation raises and
    leaves one thread, where there were more. *)
Lemma evaluate_failing_batch_keeps_one_thread_witness :
  exists t,
    evaluate (box := Scenes.flaky) Scripted.single 1%nat Scenes.uneven Scripted.cpu
      [] false "Test:" Scripted.fresh
    = (Raise RuntimeError,
       {| objs := evaluated_objects None Scripted.cpu 1 [] (objs Scripted.fresh);
          num_threads := 1;
          files := files Scripted.fresh |}, t)
    /\ num_threads Scripted.fresh <> 1.
Proof.
  destruct (evaluate_failing_batch_keeps_one_thread (box := Scenes.flaky)
              Scripted.single 1%nat
              [{| batch_size := 1; samples := 1 |}] {| batch_size := 3; samples := 2 |}
              [] Scripted.cpu [] false "Test:" RuntimeError Scripted.fresh)
    as [t Ht].
  - repeat constructor. eexists. vm_compute. reflexivity.
  - vm_compute. reflexivity.
  - exists t. split; [exact Ht|]. vm_compute. congruence.
Defined.

(** ** Scores that are not numbers *)

Module FloatFacts.

Lemma SFcompare_refl s : s <> S754_nan -> SFcompare s s = Some Eq.
Proof.
  destruct s as [sg| sg| |sg m e]; try done; intros _; simpl.
  - by destruct sg.
  - rewrite Z.compare_refl, Pos.compare_cont_refl. by destruct sg.
Qed.

Lemma SFltb_not_nan x y : SFltb x y = true -> x <> S754_nan /\ y <> S754_nan.
Proof. unfold SFltb. destruct x, y; simpl; try done. Qed.

(** A comparison that holds has no NaN on either side. *)
Lemma gt_not_nan a b :
  PyFloat.gt a b = true -> PrimFloat.is_nan a = false /\ PrimFloat.is_nan b = false.
Proof.
  unfold PyFloat.gt, PrimFloat.is_nan. rewrite FloatAxioms.ltb_spec, !FloatAxioms.eqb_spec.
  intros [Hb Ha]%SFltb_not_nan. unfold SFeqb.
  by rewrite !SFcompare_refl.
Qed.

End FloatFacts.

Lemma increasing_not_nan vs : forall best,
  increasing best vs -> Forall (fun v => PrimFloat.is_nan v = false) vs.
Proof.
  induction vs as [|v vs IH]; intros best; [constructor|].
  intros [Hgt Hvs]. constructor; [|by eapply IH].
  by apply FloatFacts.gt_not_nan in Hgt as [? _].
Qed.

Lemma increasing_from_nan best vs :
  PrimFloat.is_nan best = true -> increasing best vs -> vs = [].
Proof.
  intros Hnan. destruct vs as [|v vs]; [done|]. intros [Hgt _].
  apply FloatFacts.gt_not_nan in Hgt as [_ Hb]. congruence.
Qed.

Lemma saved_values_nil t : saved_values t = [] -> saves t = [].
Proof.
  induction t as [|e t IH]; [done|].
  unfold saves in *. destruct e; simpl; auto. done.
Qed.

(** X16.  No run of [distill] writes a score that is not a number: a NaN
    compares above nothing.  Nor does anything compare above a NaN: a run
    that resumes from a checkpoint whose best value is NaN writes no
    checkpoint at all, whatever its validations score, and leaves every file
    as it was. *)
Theorem distill_never_writes_nan {H : Type} {box : Collaborators H}
    ctx teacher student dev ids distributed start cfg a (w w' : world H) r t :
  distill ctx teacher student dev ids distributed start cfg a w = (r, w', t) ->
  Forall (fun v => PrimFloat.is_nan v = false) (saved_values t)
  /\ (PrimFloat.is_nan (initial_best (files w !! ckpt (student_model cfg))) = true ->
      saves t = [] /\ files w' = files w).
Proof.
  intros Hrun.
  assert (increasing (initial_best (files w !! ckpt (student_model cfg)))
            (saved_values t)) as Hinc.
  { destruct (distill_saved_values _ _ _ _ _ _ _ _ _ _ _ _ _ Hrun)
      as (swd & epochs & scores & ->).
    apply increasing_loop_steps. }
  split; [by eapply increasing_not_nan|]. intros Hnan.
  pose proof (increasing_from_nan _ _ Hnan Hinc) as Hnil.
  split; [by apply saved_values_nil|].
  pose proof (wp_elim _ _ _ _ _ _
    (distill_last_write ctx teacher student dev ids distributed start cfg a w) Hrun)
    as Hlast.
  unfold last_write in Hlast. by rewrite Hnil in Hlast.
Qed.

(** Resumed from a best value that is not a number, the scripted run on
    0.5, 0.4, 0.6, 0.6, 0.7 writes nothing. *)
Lemma distill_never_writes_nan_witness :
  saves (distill (box := Scripted.five) Scripted.single 0%nat 1%nat Scripted.cpu []
           false 0 Scripted.cfg Scripted.run_args Scenes.poisoned).2 = []
  /\ files (distill (box := Scripted.five) Scripted.single 0%nat 1%nat Scripted.cpu []
              false 0 Scripted.cfg Scripted.run_args Scenes.poisoned).1.2
     = files Scenes.poisoned.
Proof.
  eapply (distill_never_writes_nan (box := Scripted.five) Scripted.single
            0%nat 1%nat Scripted.cpu [] false 0 Scripted.cfg Scripted.run_args
            Scenes.poisoned _ (Ok tt) _).
  - vm_compute. reflexivity.
  - vm_compute. reflexivity.
Defined.

(** ** A run of [distill] that raises *)

Section FailedRun.

Context {H : Type} {box : Collaborators H}.
Variable ctx : DistributedContext.

Lemma emits_wp {A} P (m : M H A) (w : world H) :
  emits_only P m -> wp m (fun _ _ t => Forall P t) w.
Proof. intros Hm. specialize (Hm w). unfold wp. by destruct (m w) as [[r w'] t]. Qed.

Lemma distill_setup_no_teardown teacher student distributed cfg :
  emits_only (H := H) (fun e => is_teardown e = false)
    (distill_setup teacher student distributed cfg).
Proof.
  unfold distill_setup, resume_best_score, check_if_exists, load_ckpt,
    student_model_without_ddp.
  frame.
Qed.

Lemma distill_epoch_no_teardown student swd dev ids distributed cfg a path epoch best :
  emits_only (H := H) (fun e => is_teardown e = false)
    (distill_epoch ctx student swd dev ids distributed cfg a path epoch best).
Proof.
  unfold distill_epoch, distill_one_epoch, save_ckpt, evaluate, wrap,
    synchronize_between_processes, global_avg_of.
  frame.
Qed.

Lemma distill_failed_spec teacher student dev ids distributed start cfg a (w : world H) :
  wp (distill ctx teacher student dev ids distributed start cfg a)
    (fun r w' t =>
       match r with
       | Ok _ => True
       | Raise e =>
           Forall (fun e => is_teardown e = false) t
           \/ exists t0 o,
                t = t0 ++ (if distributed then [EvBarrier] else [])
                        ++ [EvCleanModules]
                /\ Forall (fun e => is_teardown e = false) t0
                /\ clean_modules o = (Raise e, objs w')
       end) w.
Proof.
  unfold distill. apply wp_bind.
  eapply wp_conseq; [apply emits_wp, distill_setup_no_teardown|].
  intros [st|e] w1 t1 H1; [|by left].
  wp_steps. eapply wp_conseq; [apply emits_wp, emits_for_each|].
  { intros epoch best. apply distill_epoch_no_teardown. }
  intros [b|e] w2 t2 H2; [|left; by apply Forall_app].
  destruct (clean_modules (objs w2)) as [r o] eqn:E.
  destruct distributed; wp_steps.
  all: (eapply wp_call_eq; [exact E|]); destruct r as [[]|e]; [done|].
  all: right; exists (t1 ++ t2), (objs w2); cbn [objs].
  all: split; [by rewrite <- app_assoc|]; split; [by apply Forall_app|exact E].
Qed.

End FailedRun.

Lemma filter_teardown_nil t :
  Forall (fun e => is_teardown e = false) t -> List.filter is_teardown t = [].
Proof. induction 1 as [|ev t' Hev _ IH]; [done|]. simpl. by rewrite Hev. Qed.

(** X17.  A run of [distill] that raises has skipped the end of the
    function: unless it is the clean-up hook itself that raised, as the last
    call of the run, neither the barrier nor the clean-up hook was called.
    Nothing in [distill] catches the error of an epoch to tear the box
    down. *)
Theorem distill_failure_skips_teardown {H : Type} {box : Collaborators H}
    ctx teacher student dev ids distributed start cfg a (w w' : world H) e t :
  distill ctx teacher student dev ids distributed start cfg a w = (Raise e, w', t) ->
  Forall (fun e => is_teardown e = false) t
  \/ exists t0 o,
       t = t0 ++ (if distributed then [EvBarrier] else []) ++ [EvCleanModules]
       /\ Forall (fun e => is_teardown e = false) t0
       /\ clean_modules o = (Raise e, objs w').
Proof.
  intros Hrun.
  exact (wp_elim _ _ _ _ _ _
           (distill_failed_spec ctx teacher student dev ids distributed start cfg a w)
           Hrun).
Qed.

(** The setup hook fails at epoch 2: two epochs are run, a third is begun,
    and the box is not cleaned up. *)
Lemma distill_failure_skips_teardown_witness :
  let t := (distill (box := Scenes.stalling) Scripted.single 0%nat 1%nat Scripted.cpu
              [] false 0 Scripted.cfg Scripted.run_args Scripted.fresh).2 in
  reports t = [(0.5%float, 1%float); (0.4%float, 1%float)]
  /\ List.filter is_teardown t = [].
Proof.
  assert (distill (box := Scenes.stalling) Scripted.single 0%nat 1%nat Scripted.cpu
            [] false 0 Scripted.cfg Scripted.run_args Scripted.fresh
          = (Raise RuntimeError,
             (distill (box := Scenes.stalling) Scripted.single 0%nat 1%nat Scripted.cpu
                [] false 0 Scripted.cfg Scripted.run_args Scripted.fresh).1.2,
             (distill (box := Scenes.stalling) Scripted.single 0%nat 1%nat Scripted.cpu
                [] false 0 Scripted.cfg Scripted.run_args Scripted.fresh).2)) as Hrun.
  { vm_compute. reflexivity. }
  cbv zeta. split; [vm_compute; reflexivity|].
  destruct (distill_failure_skips_teardown _ _ _ _ _ _ _ _ _ _ _ _ _ Hrun)
    as [Hnone|(t0 & o & Ht & _ & Hclean)].
  - exact (filter_teardown_nil _ Hnone).
  - discriminate Hclean.
Defined.

(** ** The epochs of [distill], step by step *)

Section StepByStep.

Context {H : Type} {box : Collaborators H}.
Variable ctx : DistributedContext.

Lemma wp_and {A} (m : M H A) (P Q : result A -> world H -> list event -> Prop) w :
  wp m P w -> wp m Q w -> wp m (fun r w' t => P r w' t /\ Q r w' t) w.
Proof. unfold wp. by destruct (m w) as [[r w'] t]. Qed.

(** The batches of a pass, with what the calls did to the objects. *)
Lemma wp_pass_run bs : forall (u : unit) (Q : result unit -> world H -> list event -> Prop) w,
  (forall r o t,
     steps t = [] ->
     match r with Ok _ => pass_run bs (objs w) o | Raise _ => True end ->
     Q r {| objs := o; num_threads := num_threads w; files := files w |} t) ->
  wp (for_each bs u (fun b _ =>
        bind (emit (EvForward b)) (fun _ =>
          bind (call (forward_loss b)) (fun loss =>
            bind (emit (EvUpdateParams loss)) (fun _ =>
              call (update_params loss)))))) Q w.
Proof.
  induction bs as [|b bs IH]; intros u Q w HQ; simpl.
  - apply wp_ret. destruct w as [o n f]. apply (HQ _ o); [done|constructor].
  - wp_steps.
    destruct (forward_loss b (objs w)) as [[loss|e] o1] eqn:Eloss;
      (eapply wp_call_eq; [exact Eloss|]); cbv beta iota; [|by apply HQ].
    wp_steps. cbn [objs].
    destruct (update_params loss o1) as [[[]|e] o2] eqn:Eupdate;
      (eapply wp_call_eq; [exact Eupdate|]); cbv beta iota; [|by apply HQ].
    apply IH. intros r o3 t Ht Hr. cbn. apply HQ; [exact Ht|].
    destruct r; [|done]. by eapply pass_batch.
Qed.

Lemma distill_one_epoch_run epoch (w : world H) :
  wp (distill_one_epoch epoch)
    (fun r w' t =>
       files w' = files w /\ num_threads w' = num_threads w
       /\ steps t = [EvDistillOneEpoch epoch]
       /\ match r with
          | Ok _ => pass_run (train_data_loader (objs w)) (objs w) (objs w')
          | Raise _ => True
          end) w.
Proof.
  unfold distill_one_epoch. wp_steps. apply wp_pass_run.
  intros r o t Ht Hr. repeat split; [|exact Hr].
  unfold steps in *. simpl. by rewrite Ht.
Qed.

(** An evaluation that returns, as a step of the loop. *)
Lemma evaluate_run model dl dev ids distributed header (w : world H) :
  wp (evaluate ctx model dl dev ids distributed header)
    (fun r w' t =>
       match r with
       | Ok v =>
           let k := eval_wrapper distributed dev in
           w' = {| objs := evaluated_objects k dev model ids (objs w);
                   num_threads := num_threads w; files := files w |}
           /\ (exists top5, steps t = [EvEvaluate model header; EvAccuracy v top5])
           /\ exists accs,
                Forall2 (fun b acc =>
                           accuracy (evaluated_model k model (modules (objs w))) b
                             (objs w') = Ok acc) dl accs
                /\ synchronized_mean
                     (if is_distributed ctx then Some (all_reduce (objs w') "acc1")
                      else None)
                     (weighted (accs.*1) dl) = Ok v
       | Raise _ => True
       end) w.
Proof.
  eapply wp_conseq;
    [apply wp_and; [apply evaluate_spec|apply evaluate_score_spec]|].
  intros [v|e] w' t [(Hf & Ho & Hl & Hh & Hm & _ & Hr) Hscore]; [|done].
  destruct Hr as [Hn Hs]. destruct Hscore as (accs & Hall & _ & Hv).
  cbv zeta. split; [|split; [exact Hs|by exists accs]].
  destruct w' as [[m' op' ls' h'] n' f']. cbn in *. unfold evaluated_objects.
  by subst.
Qed.

(** One epoch that returns: its steps, and what they did. *)
Lemma distill_epoch_run student swd dev ids distributed cfg a path epoch best
    (w : world H) :
  wp (distill_epoch ctx student swd dev ids distributed cfg a path epoch best)
    (fun r w' t =>
       match r with
       | Ok b =>
           exists v t5,
             b = next_best (is_main_process ctx) best v
             /\ steps t = epoch_steps student swd path (is_main_process ctx)
                            epoch best v t5
             /\ num_threads w' = num_threads w
             /\ epoch_run ctx student swd dev ids distributed cfg a path epoch best
                  (objs w, files w) v (objs w', files w')
       | Raise _ => True
       end) w.
Proof.
  unfold distill_epoch. wp_steps.
  destruct (pre_process epoch (objs w)) as [[[]|e] o1] eqn:Epre;
    (eapply wp_call_eq; [exact Epre|]); cbv beta iota; [|done].
  wp_steps. eapply wp_conseq; [apply distill_one_epoch_run|].
  intros [[]|e] w2 t2 (Hf2 & Hn2 & Hs2 & Hpass); [|done]. cbn in Hf2, Hn2, Hpass.
  wp_steps. eapply wp_conseq; [apply evaluate_run|].
  intros [v|e] w3 t3 Hev; [|done]. cbv zeta in Hev.
  destruct Hev as (-> & [t5 Hs3] & accs & Hall & Hv). cbn [objs] in Hall, Hv.
  assert (forall tl, steps (EvPreProcess epoch :: t2 ++ t3 ++ tl)
                     = [EvPreProcess epoch; EvDistillOneEpoch epoch;
                        EvEvaluate student "Validation:"; EvAccuracy v t5] ++ steps tl)
    as Hsteps.
  { intros tl. unfold steps in *. simpl. by rewrite !List.filter_app, Hs2, Hs3. }
  assert (validation_run ctx student dev ids distributed (objs w2) v
            (evaluated_objects (eval_wrapper distributed dev) dev student ids
               (objs w2))) as Hval.
  { split; [done|]. by exists accs. }
  wp_steps. fold (improves (is_main_process ctx) best v).
  destruct (improves (is_main_process ctx) best v) eqn:Himp.
  - unfold save_ckpt. wp_steps.
    destruct (post_process (evaluated_objects (eval_wrapper distributed dev) dev
                              student ids (objs w2))) as [[[]|e] o4] eqn:Epost;
      (eapply wp_call_eq; [exact Epost|]); cbv beta iota; [|done].
    wp_steps. exists v, t5. unfold next_best, epoch_steps. rewrite Himp, Hsteps.
    split; [done|]. split; [done|]. split; [done|].
    eexists o1, (objs w2), _. cbn [fst snd]. rewrite Himp, Hf2.
    split; [exact Epre|]. split; [exact Hpass|]. split; [exact Hval|].
    split; [reflexivity|exact Epost].
  - wp_steps.
    destruct (post_process (evaluated_objects (eval_wrapper distributed dev) dev
                              student ids (objs w2))) as [[[]|e] o4] eqn:Epost;
      (eapply wp_call_eq; [exact Epost|]); cbv beta iota; [|done].
    wp_steps. exists v, t5. unfold next_best, epoch_steps. rewrite Himp, Hsteps.
    split; [done|]. split; [done|]. split; [done|].
    eexists o1, (objs w2), _. cbn [fst snd]. rewrite Himp, Hf2.
    split; [exact Epre|]. split; [exact Hpass|]. split; [exact Hval|].
    split; [reflexivity|exact Epost].
Qed.

(** The loop when it returns. *)
Lemma loop_run_spec student swd dev ids distributed cfg a path epochs :
  forall best (w : world H),
  wp (for_each epochs best
        (distill_epoch ctx student swd dev ids distributed cfg a path))
    (fun r w' t =>
       match r with
       | Ok _ =>
           exists scores,
             length scores = length epochs
             /\ steps t = loop_steps student swd path (is_main_process ctx) epochs
                            best scores
             /\ num_threads w' = num_threads w
             /\ loop_run ctx student swd dev ids distributed cfg a path epochs best
                  (objs w, files w) (scores.*1) (objs w', files w')
       | Raise _ => True
       end) w.
Proof.
  induction epochs as [|e es IH]; intros best w; cbn [for_each].
  - apply wp_ret. by exists [].
  - apply wp_bind. eapply wp_conseq; [apply distill_epoch_run|].
    intros [b|e0] w1 t1 Hr1; [|done].
    destruct Hr1 as (v & t5 & -> & Hs1 & Hn1 & Hrun1).
    eapply wp_conseq; [apply IH|].
    intros [b2|e0] w2 t2 Hr2; [|done].
    destruct Hr2 as (scores & Hlen & Hs2 & Hn2 & Hrun2).
    exists ((v, t5) :: scores). split; [by simpl; rewrite Hlen|].
    split; [by rewrite steps_app, Hs1, Hs2|]. split; [congruence|].
    cbn [fmap list_fmap fst loop_run]. by exists (objs w1, files w1).
Qed.

(** A run of [distill] that returns. *)
Lemma distill_run teacher student dev ids distributed start cfg a (w : world H) :
  wp (distill ctx teacher student dev ids distributed start cfg a)
    (fun r w' t =>
       match r with
       | Ok _ =>
           exists o1 scores o_end,
             let path := ckpt (student_model cfg) in
             let ck := files w !! path in
             let swd := underlying (modules o1) student in
             let epochs := range start (num_epochs (restore_from ck o1)) in
             get_distillation_box teacher student distributed (objs w) = (Ok tt, o1)
             /\ length scores = length epochs
             /\ steps t
                = [EvGetDistillationBox teacher student]
                  ++ match ck with Some _ => [EvLoadCkpt path None true] | None => [] end
                  ++ loop_steps student swd path (is_main_process ctx) epochs
                       (initial_best ck) scores
                  ++ (if distributed then [EvBarrier] else [])
                  ++ [EvCleanModules]
             /\ loop_run ctx student swd dev ids distributed cfg a path epochs
                  (initial_best ck) (restore_from ck o1, files w) (scores.*1)
                  (o_end, files w')
             /\ clean_modules o_end = (Ok tt, objs w')
             /\ num_threads w' = num_threads w
       | Raise _ => True
       end) w.
Proof.
  unfold distill. apply wp_bind.
  eapply wp_conseq; [apply distill_setup_spec|]. intros r1 w1 t1. cbv zeta.
  destruct (get_distillation_box teacher student distributed (objs w))
    as [[[]|e] o1] eqn:Ebox; intros (-> & -> & ->); [|done].
  set (ck := files w !! ckpt (student_model cfg)).
  assert (forall tl,
    steps (EvGetDistillationBox teacher student
           :: match ck with
              | Some _ => [EvLoadCkpt (ckpt (student_model cfg)) None true]
              | None => []
              end ++ tl)
    = EvGetDistillationBox teacher student
      :: match ck with
         | Some _ => [EvLoadCkpt (ckpt (student_model cfg)) None true]
         | None => []
         end ++ steps tl) as Hsetup.
  { intros tl. by destruct ck. }
  wp_steps. eapply wp_conseq; [apply loop_run_spec|].
  intros [b|e] w2 t2 Hr2; [|done].
  destruct Hr2 as (scores & Hlen & Hs & Hn & Hrun). cbn [objs files num_threads] in *.
  destruct (clean_modules (objs w2)) as [[[]|e] o3] eqn:Eclean.
  - destruct distributed; wp_steps; (eapply wp_call_eq; [exact Eclean|]).
    all: exists o1, scores, (objs w2); cbv zeta; cbn [objs files num_threads].
    all: rewrite Hsetup, !steps_app, Hs.
    all: repeat split; try done.
  - destruct distributed; wp_steps; (eapply wp_call_eq; [exact Eclean|]); done.
Qed.

End StepByStep.

(** C4.  A run of [distill] that returns went through these steps, in this
    order: the construction of the box and, if a checkpoint was there, its
    load; then for each epoch of [range(start, num_epochs)], which counts
    from [start] up one by one and stops before [num_epochs], the setup
    hook, one distillation pass, the validation of the student, the
    checkpoint write if the score improved, and the teardown hook; then the
    barrier if distributed; and last the clean-up hook.

    The steps are in the trace, and they have been taken: from the objects
    the construction of the box and the load left, and the files the run
    found, the epochs lead one after the other, as section 4.6 lists them
    ([loop_run]: each hook, each loss and each parameter update returned,
    each validation scored the student, each improvement replaced the
    checkpoint), to the objects the clean-up hook was called on and to the
    files the run leaves. *)
Theorem distill_steps_in_order {H : Type} {box : Collaborators H}
    ctx teacher student dev ids distributed start cfg a (w w' : world H) t :
  distill ctx teacher student dev ids distributed start cfg a w = (Ok tt, w', t) ->
  exists o1 scores o_end,
    get_distillation_box teacher student distributed (objs w) = (Ok tt, o1)
    /\ let path := ckpt (student_model cfg) in
       let ck := files w !! path in
       let n := num_epochs (restore_from ck o1) in
       let epochs := range start n in
       let without_ddp := underlying (modules o1) student in
       (forall i : nat,
           epochs !! i = if decide (start + Z.of_nat i < n)
                         then Some (start + Z.of_nat i) else None)
       /\ length scores = length epochs
       /\ steps t
          = [EvGetDistillationBox teacher student]
            ++ match ck with Some _ => [EvLoadCkpt path None true] | None => [] end
            ++ loop_steps student without_ddp path
                 (is_main_process ctx) epochs (initial_best ck) scores
            ++ (if distributed then [EvBarrier] else [])
            ++ [EvCleanModules]
       /\ loop_run ctx student without_ddp dev ids distributed cfg a path epochs
            (initial_best ck) (restore_from ck o1, files w) (scores.*1)
            (o_end, files w')
       /\ clean_modules o_end = (Ok tt, objs w').
Proof.
  intros Hrun.
  pose proof (wp_elim _ _ _ _ _ _
    (distill_run ctx teacher student dev ids distributed start cfg a w) Hrun)
    as (o1 & scores & o_end & Hbox & Hlen & Hs & Hloop & Hclean & _).
  exists o1, scores, o_end. split; [exact Hbox|]. cbv zeta.
  split; [intros i; apply range_lookup|]. by repeat split.
Qed.

Lemma distill_steps_in_order_witness :
  exists scores o_end,
    length scores = 2%nat
    /\ steps (distill (box := Scripted.box [0.5%float; 0.4%float] 2) Scripted.single
                0%nat 1%nat Scripted.cpu [] false 0 Scripted.cfg Scripted.run_args
                Scripted.fresh).2
       = [EvGetDistillationBox 0%nat 1%nat]
         ++ loop_steps 1%nat 1%nat "student.pt" true [0; 1] 0%float scores
         ++ [EvCleanModules]
    /\ loop_run (box := Scripted.box [0.5%float; 0.4%float] 2) Scripted.single
         1%nat 1%nat Scripted.cpu [] false Scripted.cfg Scripted.run_args "student.pt"
         [0; 1] 0%float (objs Scripted.fresh, files Scripted.fresh) (scores.*1)
         (o_end,
          files (distill (box := Scripted.box [0.5%float; 0.4%float] 2)
                   Scripted.single 0%nat 1%nat Scripted.cpu [] false 0 Scripted.cfg
                   Scripted.run_args Scripted.fresh).1.2).
Proof.
  assert (distill (box := Scripted.box [0.5%float; 0.4%float] 2) Scripted.single
            0%nat 1%nat Scripted.cpu [] false 0 Scripted.cfg Scripted.run_args
            Scripted.fresh
          = (Ok tt,
             (distill (box := Scripted.box [0.5%float; 0.4%float] 2) Scripted.single
                0%nat 1%nat Scripted.cpu [] false 0 Scripted.cfg Scripted.run_args
                Scripted.fresh).1.2,
             (distill (box := Scripted.box [0.5%float; 0.4%float] 2) Scripted.single
                0%nat 1%nat Scripted.cpu [] false 0 Scripted.cfg Scripted.run_args
                Scripted.fresh).2)) as Hrun.
  { vm_compute. reflexivity. }
  destruct (distill_steps_in_order _ _ _ _ _ _ _ _ _ _ _ _ Hrun)
    as (o1 & scores & o_end & Hbox & _ & Hlen & Hs & Hloop & _).
  injection Hbox as <-. exists scores, o_end.
  split; [exact Hlen|]. split; [exact Hs|exact Hloop].
Defined.
